(** * ResNetV1b architecture construction (riptide/models/resnetv1b.py)

    A shallow embedding of the model-construction code: the two residual
    block classes, the stage builder [_make_layer], the network assembler
    [ResNetV1b.__init__] and the variant constructor functions.

    Conventions of the embedding.
    - Python integers are [Z]; the float [final_drop] is a rational [Q]
      (a finite float; only its comparison with 0.0 is used).
    - A Keras layer object is the record of the keyword arguments its
      constructor was called with: an argument the code does not pass is
      [None] (Keras then takes its own default).  The layer library is
      external; its own argument validation is not part of this module.
    - The lists [['name', item, item, ...]] the code builds for the deep
      stem, the downsample path and the stages are [Named] sequences.
    - [norm_layer] is a class object (a factory of normalization layers),
      [norm_kwargs] a dict from keyword to value, modelled as a [gmap].
      The [None] default of [norm_layer] in the block and stage builder
      signatures is not a factory; the assembler always passes one.
    - Exceptions are explicit: a computation that can raise returns a
      [result]; the stage builder, which reads and writes [self.inplanes],
      runs in a state-and-exception monad over the fields of [self] it uses. *)

From stdpp Require Import base strings gmap list pretty numbers.
From Stdlib Require Import QArith.

Open Scope Z_scope.
Open Scope string_scope.

(** ** Python values, exceptions *)

(** Values that occur in keyword dictionaries. *)
Inductive PyVal :=
| PyBool (b : bool)
| PyInt (z : Z)
| PyFloat (q : Q)
| PyStr (s : string).

Inductive PyError :=
| RuntimeError (msg : string)
| TypeError
| IndexError.

Inductive result (A : Type) :=
| Ok (a : A)
| Raise (e : PyError).
Arguments Ok {A} a.
Arguments Raise {A} e.

Definition result_bind {A B} (r : result A) (k : A → result B) : result B :=
  match r with
  | Ok a => k a
  | Raise e => Raise e
  end.

Definition result_map {A B} (f : A → B) (r : result A) : result B :=
  result_bind r (λ a, Ok (f a)).

(** [xs[i]] on a Python list, for an index [i >= 0]. *)
Definition py_index {A} (xs : list A) (i : nat) : result A :=
  match xs !! i with
  | Some x => Ok x
  | None => Raise IndexError
  end.

(** ** Layers of the external library *)

Module nn.

(** The class object passed as [norm_layer]. *)
Inductive NormLayer :=
| BatchNormalization
| OtherNorm (class_name : string).

Record Conv2D_args := {
  filters : Z;
  kernel_size : Z;
  strides : option Z;
  padding : option string;
  dilation_rate : option Z;
  use_bias : bool;
  data_format : string
}.

Inductive Layer :=
| Conv2D (a : Conv2D_args)
| Norm (norm_layer : NormLayer) (kwargs : gmap string PyVal)
| Activation (fn : string)
| MaxPool2D (pool_size pool_strides : Z) (pool_padding pool_format : string)
| AveragePooling2D (pool_size pool_strides : Z) (pool_padding pool_format : string)
| GlobalAveragePooling2D (pool_format : string)
| Flatten
| Dropout (rate : Q)
| Dense (units : Z).

End nn.
Export nn.

(** The list [[name, x1, ..., xn]]. *)
Record Named (A : Type) := { seq_name : string; seq_items : list A }.
Arguments seq_name {A} _.
Arguments seq_items {A} _.

(** What [forward] is applied to: one layer or a named list of layers. *)
Inductive Node :=
| Single (l : Layer)
| Sequence (s : Named Layer).

(** [norm_layer] called with the entries of [norm_kwargs] as keywords. *)
Definition norm_call (norm_layer : NormLayer) (norm_kwargs : gmap string PyVal) : Layer :=
  Norm norm_layer norm_kwargs.

(** [norm_layer] called with [gamma_initializer='zeros'] and the entries of
    [norm_kwargs]: a keyword given both explicitly and through the dict is
    a [TypeError] of the call. *)
Definition norm_call_zero_gamma (norm_layer : NormLayer)
    (norm_kwargs : gmap string PyVal) : result Layer :=
  match norm_kwargs !! "gamma_initializer" with
  | Some _ => Raise TypeError
  | None => Ok (Norm norm_layer (<["gamma_initializer" := PyStr "zeros"]> norm_kwargs))
  end.

Definition is_norm (l : Layer) : bool :=
  match l with Norm _ _ => true | _ => false end.

Definition is_activation (l : Layer) : bool :=
  match l with Activation _ => true | _ => false end.

(** ** BasicBlockV1b *)

Module BasicBlockV1b.

Definition expansion : Z := 1.

Record t := {
  conv1 : Layer;
  bn1 : Layer;
  relu1 : Layer;
  conv2 : Layer;
  bn2 : Layer;
  relu2 : Layer;
  downsample : option (Named Layer);
  strides : Z
}.

(** [kwargs] collects the keywords the signature does not name
    ([last_gamma] when the stage builder calls); it is not read. *)
Definition __init__ (planes strides dilation : Z)
    (downsample : option (Named Layer)) (previous_dilation : Z)
    (norm_layer : NormLayer) (norm_kwargs : gmap string PyVal)
    (data_format : string) (kwargs : gmap string PyVal) : t :=
  {| conv1 := Conv2D {| filters := planes; kernel_size := 3;
                        nn.strides := Some strides;
                        padding := Some "same";
                        dilation_rate := Some dilation;
                        use_bias := false; data_format := data_format |};
     bn1 := norm_call norm_layer norm_kwargs;
     relu1 := Activation "relu";
     conv2 := Conv2D {| filters := planes; kernel_size := 3;
                        nn.strides := Some 1;
                        padding := Some "same";
                        dilation_rate := Some previous_dilation;
                        use_bias := false; data_format := data_format |};
     bn2 := norm_call norm_layer norm_kwargs;
     relu2 := Activation "relu";
     downsample := downsample;
     strides := strides |}.

(** The layers the block owns, in attribute order. *)
Definition own_layers (b : t) : list Layer :=
  [conv1 b; bn1 b; relu1 b; conv2 b; bn2 b; relu2 b].

Section Call.
(** The tensor type, the [forward] helper of [riptide.utils.sequential]
    and tensor addition belong to external code. *)
Context {Tensor : Type}.
Variable forward : Tensor → Node → Tensor.
Variable add : Tensor → Tensor → Tensor.

Definition call (self : t) (x : Tensor) : Tensor :=
  let residual := x in
  let out := forward x (Single (conv1 self)) in
  let out := forward out (Single (bn1 self)) in
  let out := forward out (Single (relu1 self)) in
  let out := forward out (Single (conv2 self)) in
  let out := forward out (Single (bn2 self)) in
  let residual :=
    match downsample self with
    | Some d => forward x (Sequence d)
    | None => residual
    end in
  let out := add out residual in
  let out := forward out (Single (relu2 self)) in
  out.
End Call.

End BasicBlockV1b.

(** ** BottleneckV1b *)

Module BottleneckV1b.

Definition expansion : Z := 4.

Record t := {
  conv1 : Layer;
  bn1 : Layer;
  relu1 : Layer;
  conv2 : Layer;
  bn2 : Layer;
  relu2 : Layer;
  conv3 : Layer;
  bn3 : Layer;
  relu3 : Layer;
  downsample : option (Named Layer);
  dilation : Z;
  strides : Z
}.

Definition __init__ (planes strides dilation : Z)
    (downsample : option (Named Layer)) (previous_dilation : Z)
    (norm_layer : NormLayer) (norm_kwargs : gmap string PyVal)
    (last_gamma : bool) (data_format : string)
    (kwargs : gmap string PyVal) : result t :=
  let conv1 := Conv2D {| filters := planes; kernel_size := 1;
                         nn.strides := None; padding := None;
                         dilation_rate := None;
                         use_bias := false; data_format := data_format |} in
  let bn1 := norm_call norm_layer norm_kwargs in
  let relu1 := Activation "relu" in
  let conv2 := Conv2D {| filters := planes; kernel_size := 3;
                         nn.strides := Some strides;
                         padding := Some "same";
                         dilation_rate := Some dilation;
                         use_bias := false; data_format := data_format |} in
  let bn2 := norm_call norm_layer norm_kwargs in
  let relu2 := Activation "relu" in
  let conv3 := Conv2D {| filters := planes * 4; kernel_size := 1;
                         nn.strides := None; padding := None;
                         dilation_rate := None;
                         use_bias := false; data_format := data_format |} in
  result_bind
    (if negb last_gamma then Ok (norm_call norm_layer norm_kwargs)
     else norm_call_zero_gamma norm_layer norm_kwargs)
    (λ bn3,
      Ok {| conv1 := conv1; bn1 := bn1; relu1 := relu1;
            conv2 := conv2; bn2 := bn2; relu2 := relu2;
            conv3 := conv3; bn3 := bn3; relu3 := Activation "relu";
            downsample := downsample;
            dilation := dilation;
            strides := strides |}).

Definition own_layers (b : t) : list Layer :=
  [conv1 b; bn1 b; relu1 b; conv2 b; bn2 b; relu2 b; conv3 b; bn3 b; relu3 b].

Section Call.
Context {Tensor : Type}.
Variable forward : Tensor → Node → Tensor.
Variable add : Tensor → Tensor → Tensor.

Definition call (self : t) (x : Tensor) : Tensor :=
  let residual := x in
  let out := forward x (Single (conv1 self)) in
  let out := forward out (Single (bn1 self)) in
  let out := forward out (Single (relu1 self)) in
  let out := forward out (Single (conv2 self)) in
  let out := forward out (Single (bn2 self)) in
  let out := forward out (Single (relu2 self)) in
  let out := forward out (Single (conv3 self)) in
  let out := forward out (Single (bn3 self)) in
  let residual :=
    match downsample self with
    | Some d => forward x (Sequence d)
    | None => residual
    end in
  let out := add out residual in
  let out := forward out (Single (relu3 self)) in
  out.
End Call.

End BottleneckV1b.

(** ** Block classes as values *)

(** The [block] argument: one of the two classes above. *)
Inductive BlockClass :=
| BasicBlockV1b_class
| BottleneckV1b_class.

Inductive Block :=
| Basic (b : BasicBlockV1b.t)
| Bottleneck (b : BottleneckV1b.t).

(** [block.expansion] *)
Definition expansion (block : BlockClass) : Z :=
  match block with
  | BasicBlockV1b_class => BasicBlockV1b.expansion
  | BottleneckV1b_class => BottleneckV1b.expansion
  end.

(** The call [block(planes, strides, dilation=.., downsample=..,
    previous_dilation=.., norm_layer=.., norm_kwargs=.., last_gamma=..,
    data_format=..)] of the stage builder.  [BasicBlockV1b] has no
    [last_gamma] parameter: the keyword lands in its [kwargs]. *)
Definition block_call (block : BlockClass) (planes strides dilation : Z)
    (downsample : option (Named Layer)) (previous_dilation : Z)
    (norm_layer : NormLayer) (norm_kwargs : gmap string PyVal)
    (last_gamma : bool) (data_format : string) : result Block :=
  match block with
  | BasicBlockV1b_class =>
      Ok (Basic (BasicBlockV1b.__init__ planes strides dilation downsample
                   previous_dilation norm_layer norm_kwargs data_format
                   {["last_gamma" := PyBool last_gamma]}))
  | BottleneckV1b_class =>
      result_map Bottleneck
        (BottleneckV1b.__init__ planes strides dilation downsample
           previous_dilation norm_layer norm_kwargs last_gamma data_format ∅)
  end.

Definition block_downsample (b : Block) : option (Named Layer) :=
  match b with
  | Basic b => BasicBlockV1b.downsample b
  | Bottleneck b => BottleneckV1b.downsample b
  end.

Definition block_strides (b : Block) : Z :=
  match b with
  | Basic b => BasicBlockV1b.strides b
  | Bottleneck b => BottleneckV1b.strides b
  end.

(** The convolution of the block that carries its stride and its own
    dilation: [conv1] of a basic block, [conv2] of a bottleneck. *)
Definition block_strided_conv (b : Block) : Layer :=
  match b with
  | Basic b => BasicBlockV1b.conv1 b
  | Bottleneck b => BottleneckV1b.conv2 b
  end.

(** ** The stage builder's monad *)

(** The attributes of [self] that [_make_layer] reads or writes. *)
Record Attrs := { inplanes : Z; norm_kwargs : gmap string PyVal }.

(** State over [Attrs] with exceptions; the state survives a raise. *)
Definition Build (A : Type) : Type := Attrs → result A * Attrs.

Definition ret {A} (a : A) : Build A := λ s, (Ok a, s).

Definition bind {A B} (m : Build A) (k : A → Build B) : Build B :=
  λ s, match m s with
       | (Ok a, s') => k a s'
       | (Raise e, s') => (Raise e, s')
       end.

Definition raise {A} (e : PyError) : Build A := λ s, (Raise e, s).

Definition lift {A} (r : result A) : Build A := λ s, (r, s).

Definition get_self : Build Attrs := λ s, (Ok s, s).

Definition set_inplanes (v : Z) : Build unit :=
  λ s, (Ok tt, {| inplanes := v; norm_kwargs := norm_kwargs s |}).

Notation "'let!' x ':=' m 'in' k" := (bind m (λ x, k))
  (at level 10, x pattern, m at level 100, k at level 200).

(** [for x in xs: acc.append(body(x))] *)
Fixpoint for_each {A B} (xs : list A) (body : A → Build B) : Build (list B) :=
  match xs with
  | [] => ret []
  | x :: xs' =>
      let! b := body x in
      let! bs := for_each xs' body in
      ret (b :: bs)
  end.

(** [range(a, b)] *)
Definition range (a b : Z) : list Z := seqZ a (b - a).

(** ** ResNetV1b *)

Module ResNetV1b.

Record t := {
  attrs : Attrs;
  name : string;
  data_format : string;
  conv1 : Node;
  bn1 : Layer;
  relu : Layer;
  maxpool : Layer;
  layer1 : Named Block;
  layer2 : Named Block;
  layer3 : Named Block;
  layer4 : Named Block;
  avgpool : Layer;
  flat : Layer;
  drop : option Layer;
  fc : Layer
}.

(** Lines 324-358: the downsample sub-graph of a stage. *)
Definition make_downsample (self : Attrs) (stage_index : Z) (block : BlockClass)
    (planes strides dilation : Z) (avg_down : bool) (norm_layer : NormLayer)
    (data_format : string) : option (Named Layer) :=
  if decide (strides ≠ 1 ∨ inplanes self ≠ planes * expansion block) then
    Some {| seq_name := "down" +:+ pretty stage_index;
            seq_items :=
              if avg_down then
                [ (if decide (dilation = 1) then
                     AveragePooling2D strides strides "same" data_format
                   else
                     AveragePooling2D 1 1 "same" data_format);
                  Conv2D {| filters := planes * expansion block;
                            kernel_size := 1; nn.strides := Some 1;
                            padding := None; dilation_rate := None;
                            use_bias := false;
                            nn.data_format := data_format |};
                  norm_call norm_layer (norm_kwargs self) ]
              else
                [ Conv2D {| filters := planes * expansion block;
                            kernel_size := 1; nn.strides := Some strides;
                            padding := None; dilation_rate := None;
                            use_bias := false;
                            nn.data_format := data_format |};
                  norm_call norm_layer (norm_kwargs self) ] |}
  else None.

Definition _make_layer (stage_index : Z) (block : BlockClass)
    (planes blocks strides dilation : Z) (avg_down : bool)
    (norm_layer : NormLayer) (last_gamma : bool) (data_format : string)
    : Build (Named Block) :=
  let! self := get_self in
  let downsample :=
    make_downsample self stage_index block planes strides dilation avg_down
      norm_layer data_format in
  let! first :=
    (if decide (dilation = 1 ∨ dilation = 2) then
       lift (block_call block planes strides 1 downsample dilation
               norm_layer (norm_kwargs self) last_gamma data_format)
     else if decide (dilation = 4) then
       lift (block_call block planes strides 2 downsample dilation
               norm_layer (norm_kwargs self) last_gamma data_format)
     else
       raise (RuntimeError ("=> unknown dilation size: " +:+ pretty dilation))) in
  let! _ := set_inplanes (planes * expansion block) in
  let! rest :=
    for_each (range 1 blocks)
      (λ i, lift (block_call block planes 1 dilation None dilation
                    norm_layer (norm_kwargs self) last_gamma data_format)) in
  ret {| seq_name := "layers" +:+ pretty stage_index;
         seq_items := first :: rest |}.

(** Lines 198-235: the stem convolution(s). *)
Definition make_stem (deep_stem : bool) (stem_width : Z)
    (norm_layer : NormLayer) (norm_kwargs : gmap string PyVal)
    (data_format : string) : Node :=
  if negb deep_stem then
    Single (Conv2D {| filters := 64; kernel_size := 7; nn.strides := Some 2;
                      padding := Some "same"; dilation_rate := None;
                      use_bias := false; nn.data_format := data_format |})
  else
    Sequence
      {| seq_name := "conv1";
         seq_items :=
           [ Conv2D {| filters := stem_width; kernel_size := 3;
                       nn.strides := Some 2; padding := Some "same";
                       dilation_rate := None; use_bias := false;
                       nn.data_format := data_format |};
             norm_call norm_layer norm_kwargs;
             Activation "relu";
             Conv2D {| filters := stem_width; kernel_size := 3;
                       nn.strides := Some 1; padding := Some "same";
                       dilation_rate := None; use_bias := false;
                       nn.data_format := data_format |};
             norm_call norm_layer norm_kwargs;
             Activation "relu";
             Conv2D {| filters := stem_width * 2; kernel_size := 3;
                       nn.strides := Some 1; padding := Some "same";
                       dilation_rate := None; use_bias := false;
                       nn.data_format := data_format |} ] |}.

(** Lines 243-305: the four stages, in order, on the shared [inplanes]. *)
Definition make_stages (block : BlockClass) (layers : list Z) (dilated : bool)
    (norm_layer : NormLayer) (last_gamma avg_down : bool) (data_format : string)
    : Build (Named Block * Named Block * Named Block * Named Block) :=
  let! n1 := lift (py_index layers 0) in
  let! layer1 :=
    _make_layer 1 block 64 n1 1 1 avg_down norm_layer last_gamma data_format in
  let! n2 := lift (py_index layers 1) in
  let! layer2 :=
    _make_layer 2 block 128 n2 2 1 avg_down norm_layer last_gamma data_format in
  if dilated then
    let! n3 := lift (py_index layers 2) in
    let! layer3 :=
      _make_layer 3 block 256 n3 1 2 avg_down norm_layer last_gamma data_format in
    let! n4 := lift (py_index layers 3) in
    let! layer4 :=
      _make_layer 4 block 512 n4 1 4 avg_down norm_layer last_gamma data_format in
    ret (layer1, layer2, layer3, layer4)
  else
    let! n3 := lift (py_index layers 2) in
    let! layer3 :=
      _make_layer 3 block 256 n3 2 1 avg_down norm_layer last_gamma data_format in
    let! n4 := lift (py_index layers 3) in
    let! layer4 :=
      _make_layer 4 block 512 n4 2 1 avg_down norm_layer last_gamma data_format in
    ret (layer1, layer2, layer3, layer4).

(** [kwargs] holds the keywords the signature does not name; not read. *)
Definition __init__ (block : BlockClass) (layers : list Z) (classes : Z)
    (data_format : string) (dilated : bool) (norm_layer : NormLayer)
    (norm_kwargs : gmap string PyVal) (last_gamma deep_stem : bool)
    (stem_width : Z) (avg_down : bool) (final_drop : Q) (name_prefix : string)
    (kwargs : gmap string PyVal) : result t :=
  let self :=
    {| inplanes := if deep_stem then stem_width * 2 else 64;
       norm_kwargs := norm_kwargs |} in
  let conv1 := make_stem deep_stem stem_width norm_layer norm_kwargs data_format in
  let bn1 := norm_call norm_layer norm_kwargs in
  let relu := Activation "relu" in
  let maxpool := MaxPool2D 3 2 "same" data_format in
  match make_stages block layers dilated norm_layer last_gamma avg_down
          data_format self with
  | (Ok (layer1, layer2, layer3, layer4), self') =>
      Ok {| attrs := self';
            name := name_prefix;
            data_format := data_format;
            conv1 := conv1; bn1 := bn1; relu := relu; maxpool := maxpool;
            layer1 := layer1; layer2 := layer2;
            layer3 := layer3; layer4 := layer4;
            avgpool := GlobalAveragePooling2D data_format;
            flat := Flatten;
            drop := if Qlt_le_dec 0 final_drop then Some (Dropout final_drop)
                    else None;
            fc := Dense classes |}
  | (Raise e, _) => Raise e
  end.

End ResNetV1b.

(** ** Keyword arguments of the variant constructors *)

(** The dict a variant constructor receives and unpacks into the call of
    [ResNetV1b]: one optional entry per parameter of [ResNetV1b.__init__],
    and [kw_other] for every other keyword. *)
Record Kwargs := {
  kw_block : option BlockClass;
  kw_layers : option (list Z);
  kw_classes : option Z;
  kw_data_format : option string;
  kw_dilated : option bool;
  kw_norm_layer : option NormLayer;
  kw_norm_kwargs : option (gmap string PyVal);
  kw_last_gamma : option bool;
  kw_deep_stem : option bool;
  kw_stem_width : option Z;
  kw_avg_down : option bool;
  kw_final_drop : option Q;
  kw_name_prefix : option string;
  kw_other : gmap string PyVal
}.

Definition no_kwargs : Kwargs :=
  {| kw_block := None; kw_layers := None; kw_classes := None;
     kw_data_format := None; kw_dilated := None; kw_norm_layer := None;
     kw_norm_kwargs := None; kw_last_gamma := None; kw_deep_stem := None;
     kw_stem_width := None; kw_avg_down := None; kw_final_drop := None;
     kw_name_prefix := None; kw_other := ∅ |}.

(** The keywords a variant constructor writes out in its call. *)
Record Fixed := {
  fx_deep_stem : option bool;
  fx_avg_down : option bool;
  fx_stem_width : option Z;
  fx_name_prefix : option string
}.

Definition given {A} (o : option A) : bool :=
  match o with Some _ => true | None => false end.

(** A keyword written out in the call and present in the unpacked dict. *)
Definition twice {A} (fixed kw : option A) : bool := given fixed && given kw.

(** Explicit keyword first, then the dict, then the signature's default. *)
Definition pick {A} (fixed kw : option A) (dflt : A) : A :=
  match fixed, kw with
  | Some v, _ => v
  | None, Some v => v
  | None, None => dflt
  end.

(** The call [ResNetV1b(block, layers, k1=v1, ..., **kwargs)]: binding the
    two positional arguments again by keyword, or one keyword twice, is a
    [TypeError]; parameters left unbound take the defaults of the
    signature of [ResNetV1b.__init__]. *)
Definition ResNetV1b_call (block : BlockClass) (layers : list Z)
    (fixed : Fixed) (kwargs : Kwargs) : result ResNetV1b.t :=
  if given (kw_block kwargs) || given (kw_layers kwargs)
     || twice (fx_deep_stem fixed) (kw_deep_stem kwargs)
     || twice (fx_avg_down fixed) (kw_avg_down kwargs)
     || twice (fx_stem_width fixed) (kw_stem_width kwargs)
     || twice (fx_name_prefix fixed) (kw_name_prefix kwargs)
  then Raise TypeError
  else
    ResNetV1b.__init__ block layers
      (pick None (kw_classes kwargs) 1000)
      (pick None (kw_data_format kwargs) "channels_last")
      (pick None (kw_dilated kwargs) false)
      (pick None (kw_norm_layer kwargs) BatchNormalization)
      (pick None (kw_norm_kwargs kwargs) ∅)
      (pick None (kw_last_gamma kwargs) false)
      (pick (fx_deep_stem fixed) (kw_deep_stem kwargs) false)
      (pick (fx_stem_width fixed) (kw_stem_width kwargs) 32)
      (pick (fx_avg_down fixed) (kw_avg_down kwargs) false)
      (pick None (kw_final_drop kwargs) 0%Q)
      (pick (fx_name_prefix fixed) (kw_name_prefix kwargs) "")
      (kw_other kwargs).

(** ** The variant constructors *)

Definition resnet18_v1b (kwargs : Kwargs) : result ResNetV1b.t :=
  ResNetV1b_call BasicBlockV1b_class [2; 2; 2; 2]
    {| fx_deep_stem := None; fx_avg_down := None; fx_stem_width := None;
       fx_name_prefix := Some "resnetv1b" |} kwargs.

Definition resnet34_v1b (kwargs : Kwargs) : result ResNetV1b.t :=
  ResNetV1b_call BasicBlockV1b_class [3; 4; 6; 3]
    {| fx_deep_stem := None; fx_avg_down := None; fx_stem_width := None;
       fx_name_prefix := Some "resnetv1b" |} kwargs.

Definition resnet50_v1b (kwargs : Kwargs) : result ResNetV1b.t :=
  ResNetV1b_call BottleneckV1b_class [3; 4; 6; 3]
    {| fx_deep_stem := None; fx_avg_down := None; fx_stem_width := None;
       fx_name_prefix := Some "resnetv1b" |} kwargs.

Definition resnet101_v1b (kwargs : Kwargs) : result ResNetV1b.t :=
  ResNetV1b_call BottleneckV1b_class [3; 4; 23; 3]
    {| fx_deep_stem := None; fx_avg_down := None; fx_stem_width := None;
       fx_name_prefix := Some "resnetv1b" |} kwargs.

Definition resnet152_v1b (kwargs : Kwargs) : result ResNetV1b.t :=
  ResNetV1b_call BottleneckV1b_class [3; 8; 36; 3]
    {| fx_deep_stem := None; fx_avg_down := None; fx_stem_width := None;
       fx_name_prefix := Some "resnetv1b" |} kwargs.

Definition resnet50_v1c (kwargs : Kwargs) : result ResNetV1b.t :=
  ResNetV1b_call BottleneckV1b_class [3; 4; 6; 3]
    {| fx_deep_stem := Some true; fx_avg_down := None; fx_stem_width := None;
       fx_name_prefix := Some "resnetv1c_" |} kwargs.

Definition resnet101_v1c (kwargs : Kwargs) : result ResNetV1b.t :=
  ResNetV1b_call BottleneckV1b_class [3; 4; 23; 3]
    {| fx_deep_stem := Some true; fx_avg_down := None; fx_stem_width := None;
       fx_name_prefix := Some "resnetv1c_" |} kwargs.

Definition resnet152_v1c (kwargs : Kwargs) : result ResNetV1b.t :=
  ResNetV1b_call BottleneckV1b_class [3; 8; 36; 3]
    {| fx_deep_stem := Some true; fx_avg_down := None; fx_stem_width := None;
       fx_name_prefix := Some "resnetv1c_" |} kwargs.

Definition resnet50_v1d (kwargs : Kwargs) : result ResNetV1b.t :=
  ResNetV1b_call BottleneckV1b_class [3; 4; 6; 3]
    {| fx_deep_stem := Some true; fx_avg_down := Some true;
       fx_stem_width := None; fx_name_prefix := Some "resnetv1d_" |} kwargs.

Definition resnet101_v1d (kwargs : Kwargs) : result ResNetV1b.t :=
  ResNetV1b_call BottleneckV1b_class [3; 4; 23; 3]
    {| fx_deep_stem := Some true; fx_avg_down := Some true;
       fx_stem_width := None; fx_name_prefix := Some "resnetv1d_" |} kwargs.

Definition resnet152_v1d (kwargs : Kwargs) : result ResNetV1b.t :=
  ResNetV1b_call BottleneckV1b_class [3; 8; 36; 3]
    {| fx_deep_stem := Some true; fx_avg_down := Some true;
       fx_stem_width := None; fx_name_prefix := Some "resnetv1d_" |} kwargs.

Definition resnet50_v1e (kwargs : Kwargs) : result ResNetV1b.t :=
  ResNetV1b_call BottleneckV1b_class [3; 4; 6; 3]
    {| fx_deep_stem := Some true; fx_avg_down := Some true;
       fx_stem_width := Some 64; fx_name_prefix := Some "resnetv1e_" |} kwargs.

Definition resnet101_v1e (kwargs : Kwargs) : result ResNetV1b.t :=
  ResNetV1b_call BottleneckV1b_class [3; 4; 23; 3]
    {| fx_deep_stem := Some true; fx_avg_down := Some true;
       fx_stem_width := Some 64; fx_name_prefix := Some "resnetv1e_" |} kwargs.

Definition resnet152_v1e (kwargs : Kwargs) : result ResNetV1b.t :=
  ResNetV1b_call BottleneckV1b_class [3; 8; 36; 3]
    {| fx_deep_stem := Some true; fx_avg_down := Some true;
       fx_stem_width := Some 64; fx_name_prefix := Some "resnetv1e_" |} kwargs.

Definition resnet50_v1s (kwargs : Kwargs) : result ResNetV1b.t :=
  ResNetV1b_call BottleneckV1b_class [3; 4; 6; 3]
    {| fx_deep_stem := Some true; fx_avg_down := None;
       fx_stem_width := Some 64; fx_name_prefix := Some "resnetv1s_" |} kwargs.

Definition resnet101_v1s (kwargs : Kwargs) : result ResNetV1b.t :=
  ResNetV1b_call BottleneckV1b_class [3; 4; 23; 3]
    {| fx_deep_stem := Some true; fx_avg_down := None;
       fx_stem_width := Some 64; fx_name_prefix := Some "resnetv1s_" |} kwargs.

Definition resnet152_v1s (kwargs : Kwargs) : result ResNetV1b.t :=
  ResNetV1b_call BottleneckV1b_class [3; 8; 36; 3]
    {| fx_deep_stem := Some true; fx_avg_down := None;
       fx_stem_width := Some 64; fx_name_prefix := Some "resnetv1s_" |} kwargs.

(** The module's top-level functions, in source order, under their names. *)
Definition variant_constructors : list (string * (Kwargs → result ResNetV1b.t)) :=
  [ ("resnet18_v1b", resnet18_v1b); ("resnet34_v1b", resnet34_v1b);
    ("resnet50_v1b", resnet50_v1b); ("resnet101_v1b", resnet101_v1b);
    ("resnet152_v1b", resnet152_v1b);
    ("resnet50_v1c", resnet50_v1c); ("resnet101_v1c", resnet101_v1c);
    ("resnet152_v1c", resnet152_v1c);
    ("resnet50_v1d", resnet50_v1d); ("resnet101_v1d", resnet101_v1d);
    ("resnet152_v1d", resnet152_v1d);
    ("resnet50_v1e", resnet50_v1e); ("resnet101_v1e", resnet101_v1e);
    ("resnet152_v1e", resnet152_v1e);
    ("resnet50_v1s", resnet50_v1s); ("resnet101_v1s", resnet101_v1s);
    ("resnet152_v1s", resnet152_v1s) ].

(** ** Vocabulary of the statements *)

Definition layer_dilation (l : Layer) : option Z :=
  match l with Conv2D a => dilation_rate a | _ => None end.

Definition layer_strides (l : Layer) : option Z :=
  match l with Conv2D a => nn.strides a | _ => None end.

(** The block constructors raise only through the zero-gamma call of the
    bottleneck: this is when they return. *)
Definition ctor_ok (block : BlockClass) (last_gamma : bool)
    (norm_kwargs : gmap string PyVal) : Prop :=
  block = BasicBlockV1b_class ∨ last_gamma = false
  ∨ norm_kwargs !! "gamma_initializer" = None.

(** The state a stage builder call leaves behind when it returns. *)
Definition after_stage (self : Attrs) (block : BlockClass) (planes : Z) : Attrs :=
  {| inplanes := planes * expansion block; norm_kwargs := norm_kwargs self |}.

(** The stage [['layers<i>', first, b, ..., b]]. *)
Definition stage_of (stage_index : Z) (first : Block) (rest : list Block)
    : Named Block :=
  {| seq_name := "layers" +:+ pretty stage_index; seq_items := first :: rest |}.

(** Stride attribute of the first block of a stage. *)
Definition stage_first_strides (s : Named Block) : option Z :=
  block_strides <$> head (seq_items s).

(** Zero-initialized scale: the keywords of a normalization layer set
    [gamma_initializer] to ['zeros']. *)
Definition has_zero_gamma (l : Layer) : Prop :=
  match l with
  | Norm _ kw => kw !! "gamma_initializer" = Some (PyStr "zeros")
  | _ => False
  end.

(** Symbolic tensors: the history of [forward] and [+] steps applied to
    the input, to read the order of a block's computation off [call]. *)
Inductive Sym :=
| SInput
| SForward (x : Sym) (n : Node)
| SAdd (a b : Sym).

(** Number of [forward] steps through a single layer satisfying [p]. *)
Fixpoint count_steps (p : Layer → bool) (t : Sym) : nat :=
  match t with
  | SInput => 0
  | SForward x (Single l) => (if p l then 1 else 0) + count_steps p x
  | SForward x (Sequence _) => count_steps p x
  | SAdd a b => count_steps p a + count_steps p b
  end%nat.

(** The published architectures the variant constructors reproduce: a
    depth, which sets block class and per-stage counts, and a variant
    group, which sets the stem and downsample flags. *)
Inductive Depth := D18 | D34 | D50 | D101 | D152.

Inductive Group := Gb | Gc | Gd | Ge | Gs.

Definition depth_number (d : Depth) : Z :=
  match d with D18 => 18 | D34 => 34 | D50 => 50 | D101 => 101 | D152 => 152 end.

Definition depth_block (d : Depth) : BlockClass :=
  match d with
  | D18 | D34 => BasicBlockV1b_class
  | D50 | D101 | D152 => BottleneckV1b_class
  end.

Definition depth_layers (d : Depth) : list Z :=
  match d with
  | D18 => [2; 2; 2; 2]
  | D34 | D50 => [3; 4; 6; 3]
  | D101 => [3; 4; 23; 3]
  | D152 => [3; 8; 36; 3]
  end.

Definition group_letter (g : Group) : string :=
  match g with Gb => "b" | Gc => "c" | Gd => "d" | Ge => "e" | Gs => "s" end.

(** b: nothing but the name; c: deep stem; d: deep stem and average-down;
    e: deep stem, average-down and stem width 64; s: deep stem and stem
    width 64. *)
Definition group_fixed (g : Group) : Fixed :=
  match g with
  | Gb => {| fx_deep_stem := None; fx_avg_down := None;
             fx_stem_width := None; fx_name_prefix := Some "resnetv1b" |}
  | Gc => {| fx_deep_stem := Some true; fx_avg_down := None;
             fx_stem_width := None; fx_name_prefix := Some "resnetv1c_" |}
  | Gd => {| fx_deep_stem := Some true; fx_avg_down := Some true;
             fx_stem_width := None; fx_name_prefix := Some "resnetv1d_" |}
  | Ge => {| fx_deep_stem := Some true; fx_avg_down := Some true;
             fx_stem_width := Some 64; fx_name_prefix := Some "resnetv1e_" |}
  | Gs => {| fx_deep_stem := Some true; fx_avg_down := None;
             fx_stem_width := Some 64; fx_name_prefix := Some "resnetv1s_" |}
  end.

Definition variant_name (d : Depth) (g : Group) : string :=
  "resnet" +:+ pretty (depth_number d) +:+ "_v1" +:+ group_letter g.

(** A variant as a preset: the assembler called with the depth's block
    class and counts and the group's keywords, the caller's dict unpacked
    after them. *)
Definition preset (v : Depth * Group) : string * (Kwargs → result ResNetV1b.t) :=
  (variant_name v.1 v.2,
   ResNetV1b_call (depth_block v.1) (depth_layers v.1) (group_fixed v.2)).

(** All five depths in group b, the three bottleneck depths in the others. *)
Definition published_variants : list (Depth * Group) :=
  ((λ d, (d, Gb)) <$> [D18; D34; D50; D101; D152])
  ++ (g ← [Gc; Gd; Ge; Gs]; (λ d, (d, g)) <$> [D50; D101; D152]).

(** The dict names none of the keywords the call of the assembler already
    binds. *)
Definition no_rebinding (fixed : Fixed) (kwargs : Kwargs) : Prop :=
  kw_block kwargs = None ∧ kw_layers kwargs = None
  ∧ (fx_deep_stem fixed = None ∨ kw_deep_stem kwargs = None)
  ∧ (fx_avg_down fixed = None ∨ kw_avg_down kwargs = None)
  ∧ (fx_stem_width fixed = None ∨ kw_stem_width kwargs = None)
  ∧ (fx_name_prefix fixed = None ∨ kw_name_prefix kwargs = None).

(** ** The network's forward computation (lines 402-421) *)

(** What the network applies [forward] to: a layer or a named list of
    layers, or a stage, which is a named list of blocks. *)
Inductive Applicable :=
| OfNode (n : Node)
| OfStage (s : Named Block).

Module ResNetV1bForward.

Section Call.
(** The tensor type, [forward] and [tf.transpose] belong to external code. *)
Context {Tensor : Type}.
Variable forward : Tensor → Applicable → Tensor.
Variable transpose : Tensor → list Z → Tensor.

Definition call (self : ResNetV1b.t) (x : Tensor) : Tensor :=
  let x :=
    if decide (ResNetV1b.data_format self = "channels_first")
    then transpose x [0; 3; 1; 2] else x in
  let x := forward x (OfNode (ResNetV1b.conv1 self)) in
  let x := forward x (OfNode (Single (ResNetV1b.bn1 self))) in
  let x := forward x (OfNode (Single (ResNetV1b.relu self))) in
  let x := forward x (OfNode (Single (ResNetV1b.maxpool self))) in
  let x := forward x (OfStage (ResNetV1b.layer1 self)) in
  let x := forward x (OfStage (ResNetV1b.layer2 self)) in
  let x := forward x (OfStage (ResNetV1b.layer3 self)) in
  let x := forward x (OfStage (ResNetV1b.layer4 self)) in
  let x := forward x (OfNode (Single (ResNetV1b.avgpool self))) in
  let x := forward x (OfNode (Single (ResNetV1b.flat self))) in
  let x :=
    match ResNetV1b.drop self with
    | Some d => forward x (OfNode (Single d))
    | None => x
    end in
  let x := forward x (OfNode (Single (ResNetV1b.fc self))) in
  x.
End Call.

End ResNetV1bForward.

(** ** Vocabulary of the structural properties *)

Definition is_conv (l : Layer) : bool :=
  match l with Conv2D _ => true | _ => false end.

Definition layer_filters (l : Layer) : option Z :=
  match l with Conv2D a => Some (filters a) | _ => None end.

(** Filter counts of the convolutions of a list of layers, in order. *)
Definition path_filters (ls : list Layer) : list Z := omap layer_filters ls.

(** The stride a layer is built with; 1 for a layer built without one. *)
Definition layer_stride (l : Layer) : Z :=
  match l with
  | Conv2D a => default 1 (nn.strides a)
  | MaxPool2D _ s _ _ => s
  | AveragePooling2D _ s _ _ => s
  | _ => 1
  end.

(** Stride of a chain of layers: the product of the layers' strides. *)
Definition path_stride (ls : list Layer) : Z :=
  foldr (λ l acc, layer_stride l * acc) 1 ls.

(** The layout a layer is built with, for the layers that take one. *)
Definition layer_format (l : Layer) : option string :=
  match l with
  | Conv2D a => Some (nn.data_format a)
  | MaxPool2D _ _ _ f => Some f
  | AveragePooling2D _ _ _ f => Some f
  | GlobalAveragePooling2D f => Some f
  | _ => None
  end.

Definition node_layers (n : Node) : list Layer :=
  match n with
  | Single l => [l]
  | Sequence s => seq_items s
  end.

Definition block_own_layers (b : Block) : list Layer :=
  match b with
  | Basic b => BasicBlockV1b.own_layers b
  | Bottleneck b => BottleneckV1b.own_layers b
  end.

(** The last convolution of the main path, whose filters are the block's
    output channels. *)
Definition block_out_conv (b : Block) : Layer :=
  match b with
  | Basic b => BasicBlockV1b.conv2 b
  | Bottleneck b => BottleneckV1b.conv3 b
  end.

(** Every layer of a block: its own and those of its downsample list. *)
Definition block_layers (b : Block) : list Layer :=
  block_own_layers b
  ++ match block_downsample b with Some d => seq_items d | None => [] end.

Definition net_stages (net : ResNetV1b.t) : list (Named Block) :=
  [ResNetV1b.layer1 net; ResNetV1b.layer2 net;
   ResNetV1b.layer3 net; ResNetV1b.layer4 net].

Definition net_blocks (net : ResNetV1b.t) : list Block :=
  concat (seq_items <$> net_stages net).

(** Every layer object of a network. *)
Definition net_layers (net : ResNetV1b.t) : list Layer :=
  node_layers (ResNetV1b.conv1 net)
  ++ [ResNetV1b.bn1 net; ResNetV1b.relu net; ResNetV1b.maxpool net]
  ++ concat (block_layers <$> net_blocks net)
  ++ [ResNetV1b.avgpool net; ResNetV1b.flat net]
  ++ match ResNetV1b.drop net with Some d => [d] | None => [] end
  ++ [ResNetV1b.fc net].

(** Product of the stride attributes of the blocks of a stage. *)
Definition stage_stride (s : Named Block) : Z :=
  foldr (λ b acc, block_strides b * acc) 1 (seq_items s).

(** Input-to-feature-map stride of a network: stem, max pool, stages. *)
Definition network_stride (net : ResNetV1b.t) : Z :=
  path_stride (node_layers (ResNetV1b.conv1 net))
  * layer_stride (ResNetV1b.maxpool net)
  * foldr (λ s acc, stage_stride s * acc) 1 (net_stages net).

(** Convolutions on the main path of all blocks. *)
Definition main_convs (bs : list Block) : nat :=
  sum_list ((λ b, length (List.filter is_conv (block_own_layers b))) <$> bs).

(** Weighted layers of a network: the convolutions of the stem and of the
    main paths, and the classifier. *)
Definition weighted_layers (net : ResNetV1b.t) : nat :=
  (length (List.filter is_conv (node_layers (ResNetV1b.conv1 net)))
   + main_convs (net_blocks net) + 1)%nat.

(** What every layer of a network built for [norm_layer], [nk] and
    [data_format] looks like. *)
Definition layer_conforms (norm_layer : NormLayer) (nk : gmap string PyVal)
    (data_format : string) (l : Layer) : Prop :=
  match l with
  | Conv2D a => use_bias a = false ∧ nn.data_format a = data_format
  | Norm f kw =>
      f = norm_layer
      ∧ (kw = nk ∨ kw = <["gamma_initializer" := PyStr "zeros"]> nk)
  | Activation fn => fn = "relu"
  | MaxPool2D _ _ pad f => pad = "same" ∧ f = data_format
  | AveragePooling2D _ _ pad f => pad = "same" ∧ f = data_format
  | GlobalAveragePooling2D f => f = data_format
  | Flatten | Dropout _ | Dense _ => True
  end.

Definition convs_per_block (block : BlockClass) : nat :=
  match block with
  | BasicBlockV1b_class => 2
  | BottleneckV1b_class => 3
  end%nat.

(** Number of blocks the stage builder makes for a count: the first block
    and one per element of [range(1, blocks)]. *)
Definition stage_size (blocks : Z) : nat := S (Z.to_nat (blocks - 1)).

(** A block some constructor call of the stage builder returns, for the
    given class, planes and normalization; its downsample, if any, is one
    the stage builder makes. *)
Definition built_by (block : BlockClass) (planes : Z) (norm_layer : NormLayer)
    (nk : gmap string PyVal) (last_gamma : bool) (data_format : string)
    (b : Block) : Prop :=
  ∃ strides dilation downsample previous_dilation,
    block_call block planes strides dilation downsample previous_dilation
      norm_layer nk last_gamma data_format = Ok b
    ∧ (downsample = None
       ∨ ∃ inpl stage_index strides' dilation' avg_down,
           downsample
           = ResNetV1b.make_downsample {| inplanes := inpl; norm_kwargs := nk |}
               stage_index block planes strides' dilation' avg_down norm_layer
               data_format).

(** A layer without its geometry: strides, dilation and pool sizes are
    dropped; what decides the shapes of the weights (filters, kernel size,
    bias, units, normalization) stays. *)
Definition forget_geometry (l : Layer) : Layer :=
  match l with
  | Conv2D a =>
      Conv2D {| filters := filters a; kernel_size := kernel_size a;
                nn.strides := None; padding := padding a;
                dilation_rate := None; use_bias := use_bias a;
                nn.data_format := nn.data_format a |}
  | MaxPool2D _ _ pad f => MaxPool2D 0 0 pad f
  | AveragePooling2D _ _ pad f => AveragePooling2D 0 0 pad f
  | _ => l
  end.

(** ** The monad and the block constructors *)

Lemma for_each_lift_ok {A B} (xs : list A) (r : result B) (b : B) (st : Attrs) :
  r = Ok b →
  for_each xs (λ _, lift r) st = (Ok (replicate (length xs) b), st).
Proof.
  intros ->. induction xs as [|x xs IH]; [reflexivity|].
  cbn [for_each length replicate]. unfold bind at 1. unfold lift at 1.
  unfold bind at 1. rewrite IH. reflexivity.
Qed.

Lemma block_call_ok block planes strides dilation downsample previous_dilation
    norm_layer nk last_gamma data_format :
  ctor_ok block last_gamma nk →
  ∃ b, block_call block planes strides dilation downsample previous_dilation
         norm_layer nk last_gamma data_format = Ok b.
Proof.
  unfold block_call, BottleneckV1b.__init__, norm_call_zero_gamma, result_map.
  intros [-> | [-> | Hnk]]; [eauto | destruct block; cbn; eauto |].
  destruct block; [eauto|]. rewrite Hnk. destruct last_gamma; cbn; eauto.
Qed.

Lemma block_call_ctor_ok block planes strides dilation downsample
    previous_dilation norm_layer nk last_gamma data_format b :
  block_call block planes strides dilation downsample previous_dilation
    norm_layer nk last_gamma data_format = Ok b →
  ctor_ok block last_gamma nk.
Proof.
  unfold ctor_ok, block_call, BottleneckV1b.__init__, norm_call_zero_gamma,
    result_map.
  destruct block; [auto|]. destruct last_gamma; [|auto].
  destruct (nk !! "gamma_initializer"); cbn; [discriminate | auto].
Qed.


Lemma block_call_downsample block planes strides dilation downsample
    previous_dilation norm_layer nk last_gamma data_format b :
  block_call block planes strides dilation downsample previous_dilation
    norm_layer nk last_gamma data_format = Ok b →
  block_downsample b = downsample ∧ block_strides b = strides
  ∧ layer_dilation (block_strided_conv b) = Some dilation
  ∧ layer_strides (block_strided_conv b) = Some strides.
Proof.
  unfold block_call, BottleneckV1b.__init__, norm_call_zero_gamma, result_map.
  destruct block; [intros [= <-]; auto|].
  destruct last_gamma; cbn; [|intros [= <-]; auto].
  destruct (nk !! "gamma_initializer"); cbn; [discriminate|].
  intros [= <-]; auto.
Qed.

(** ** The stage builder *)

(** With a first-block constructor call that returns, the whole stage
    builder returns: the other blocks come from one and the same call. *)
Lemma make_layer_from_first stage_index block planes blocks strides dilation
    avg_down norm_layer last_gamma data_format st d first :
  block_call block planes strides d
    (ResNetV1b.make_downsample st stage_index block planes strides dilation
       avg_down norm_layer data_format)
    dilation norm_layer (norm_kwargs st) last_gamma data_format = Ok first →
  (dilation = 1 ∨ dilation = 2) ∧ d = 1 ∨ dilation = 4 ∧ d = 2 →
  ∃ b,
    block_call block planes 1 dilation None dilation norm_layer
      (norm_kwargs st) last_gamma data_format = Ok b
    ∧ ResNetV1b._make_layer stage_index block planes blocks strides dilation
        avg_down norm_layer last_gamma data_format st
      = (Ok (stage_of stage_index first (replicate (Z.to_nat (blocks - 1)) b)),
         after_stage st block planes).
Proof.
  intros Hfirst Hd.
  destruct (block_call_ok block planes 1 dilation None dilation norm_layer
              (norm_kwargs st) last_gamma data_format
              (block_call_ctor_ok _ _ _ _ _ _ _ _ _ _ _ Hfirst)) as [b Hb].
  exists b. split; [exact Hb|].
  unfold ResNetV1b._make_layer. unfold bind at 1. unfold get_self at 1.
  unfold bind at 1.
  assert (Hsel :
    (if decide (dilation = 1 ∨ dilation = 2)
     then lift (block_call block planes strides 1
                  (ResNetV1b.make_downsample st stage_index block planes
                     strides dilation avg_down norm_layer data_format)
                  dilation norm_layer (norm_kwargs st) last_gamma data_format)
     else if decide (dilation = 4)
     then lift (block_call block planes strides 2
                  (ResNetV1b.make_downsample st stage_index block planes
                     strides dilation avg_down norm_layer data_format)
                  dilation norm_layer (norm_kwargs st) last_gamma data_format)
     else raise (RuntimeError ("=> unknown dilation size: " +:+ pretty dilation)))
      st = (Ok first, st)).
  { destruct Hd as [[Hd ->] | [-> ->]].
    - rewrite decide_True by exact Hd. unfold lift. by rewrite Hfirst.
    - rewrite decide_False by lia. rewrite decide_True by reflexivity.
      unfold lift. by rewrite Hfirst. }
  rewrite Hsel. unfold bind at 1. unfold set_inplanes at 1. unfold bind at 1.
  rewrite (for_each_lift_ok _ _ b) by exact Hb.
  unfold ret, stage_of, after_stage, range. rewrite length_seqZ. reflexivity.
Qed.

(** With a first-block constructor call that raises, the stage builder
    raises the same exception and leaves [self] as it was. *)
Lemma make_layer_first_raises stage_index block planes blocks strides dilation
    avg_down norm_layer last_gamma data_format st d e :
  block_call block planes strides d
    (ResNetV1b.make_downsample st stage_index block planes strides dilation
       avg_down norm_layer data_format)
    dilation norm_layer (norm_kwargs st) last_gamma data_format = Raise e →
  (dilation = 1 ∨ dilation = 2) ∧ d = 1 ∨ dilation = 4 ∧ d = 2 →
  ResNetV1b._make_layer stage_index block planes blocks strides dilation
    avg_down norm_layer last_gamma data_format st = (Raise e, st).
Proof.
  intros Hfirst Hd.
  unfold ResNetV1b._make_layer. unfold bind at 1. unfold get_self at 1.
  unfold bind at 1.
  destruct Hd as [[Hd ->] | [-> ->]].
  - rewrite decide_True by exact Hd. unfold lift. by rewrite Hfirst.
  - rewrite decide_False by lia. rewrite decide_True by reflexivity.
    unfold lift. by rewrite Hfirst.
Qed.

Lemma make_layer_unknown_dilation stage_index block planes blocks strides
    dilation avg_down norm_layer last_gamma data_format st :
  dilation ≠ 1 → dilation ≠ 2 → dilation ≠ 4 →
  ResNetV1b._make_layer stage_index block planes blocks strides dilation
    avg_down norm_layer last_gamma data_format st
  = (Raise (RuntimeError ("=> unknown dilation size: " +:+ pretty dilation)), st).
Proof.
  intros H1 H2 H4.
  unfold ResNetV1b._make_layer. unfold bind at 1. unfold get_self at 1.
  unfold bind at 1.
  rewrite decide_False by lia. rewrite decide_False by exact H4.
  reflexivity.
Qed.

(** Every return of the stage builder has the shape of
    [make_layer_from_first]. *)
Lemma make_layer_inv stage_index block planes blocks strides dilation
    avg_down norm_layer last_gamma data_format st stage st' :
  ResNetV1b._make_layer stage_index block planes blocks strides dilation
    avg_down norm_layer last_gamma data_format st = (Ok stage, st') →
  ∃ d first b,
    ((dilation = 1 ∨ dilation = 2) ∧ d = 1 ∨ dilation = 4 ∧ d = 2)
    ∧ block_call block planes strides d
        (ResNetV1b.make_downsample st stage_index block planes strides
           dilation avg_down norm_layer data_format)
        dilation norm_layer (norm_kwargs st) last_gamma data_format = Ok first
    ∧ block_call block planes 1 dilation None dilation norm_layer
        (norm_kwargs st) last_gamma data_format = Ok b
    ∧ stage = stage_of stage_index first (replicate (Z.to_nat (blocks - 1)) b)
    ∧ st' = after_stage st block planes.
Proof.
  intros Hrun.
  destruct (decide (dilation = 1 ∨ dilation = 2)) as [H12 | H12].
  - destruct (block_call block planes strides 1
                (ResNetV1b.make_downsample st stage_index block planes strides
                   dilation avg_down norm_layer data_format)
                dilation norm_layer (norm_kwargs st) last_gamma data_format)
      as [first | e] eqn:Hfirst.
    + destruct (make_layer_from_first stage_index block planes blocks strides
                  dilation avg_down norm_layer last_gamma data_format st 1
                  first Hfirst) as (b & Hb & Heq); [auto|].
      rewrite Heq in Hrun. injection Hrun as <- <-.
      exists 1, first, b. auto.
    + rewrite (make_layer_first_raises _ _ _ _ _ _ _ _ _ _ _ 1 e Hfirst)
        in Hrun by auto.
      discriminate.
  - destruct (decide (dilation = 4)) as [H4 | H4].
    + destruct (block_call block planes strides 2
                  (ResNetV1b.make_downsample st stage_index block planes
                     strides dilation avg_down norm_layer data_format)
                  dilation norm_layer (norm_kwargs st) last_gamma data_format)
        as [first | e] eqn:Hfirst.
      * destruct (make_layer_from_first stage_index block planes blocks strides
                    dilation avg_down norm_layer last_gamma data_format st 2
                    first Hfirst) as (b & Hb & Heq); [auto|].
        rewrite Heq in Hrun. injection Hrun as <- <-.
        exists 2, first, b. auto.
      * rewrite (make_layer_first_raises _ _ _ _ _ _ _ _ _ _ _ 2 e Hfirst)
          in Hrun by auto.
        discriminate.
    + rewrite make_layer_unknown_dilation in Hrun by lia. discriminate.
Qed.

(** The stage builder returns exactly on a supported dilation with block
    constructors that return. *)
Lemma make_layer_returns stage_index block planes blocks strides dilation
    avg_down norm_layer last_gamma data_format st :
  dilation = 1 ∨ dilation = 2 ∨ dilation = 4 →
  ctor_ok block last_gamma (norm_kwargs st) →
  ∃ stage,
    ResNetV1b._make_layer stage_index block planes blocks strides dilation
      avg_down norm_layer last_gamma data_format st
    = (Ok stage, after_stage st block planes).
Proof.
  intros Hd Hok.
  set (d := if decide (dilation = 4) then 2 else 1).
  destruct (block_call_ok block planes strides d
              (ResNetV1b.make_downsample st stage_index block planes strides
                 dilation avg_down norm_layer data_format)
              dilation norm_layer (norm_kwargs st) last_gamma data_format Hok)
    as [first Hfirst].
  destruct (make_layer_from_first stage_index block planes blocks strides
              dilation avg_down norm_layer last_gamma data_format st d first
              Hfirst) as (b & _ & Heq).
  - subst d. destruct (decide (dilation = 4)); [auto | left; split; [lia|reflexivity]].
  - eauto.
Qed.

(** ** Dilation of the first block of a stage *)

(** C1 (as the code has it).  For a requested dilation of 1 or 2 the stage
    builder calls the block constructor of the first block with own
    dilation 1 and previous-dilation equal to the requested dilation: the
    outcome of the stage builder is the outcome of that constructor call.
    When it returns, the block heads the stage, its strided convolution
    has dilation rate 1, and the second convolution of a basic block has
    the requested dilation.  So 1 passes through as the block's own
    dilation and 2 resolves to 1. *)
Theorem C1_first_block_dilation_1_or_2 stage_index block planes blocks strides
    dilation avg_down norm_layer last_gamma data_format st :
  dilation = 1 ∨ dilation = 2 →
  match block_call block planes strides 1
          (ResNetV1b.make_downsample st stage_index block planes strides
             dilation avg_down norm_layer data_format)
          dilation norm_layer (norm_kwargs st) last_gamma data_format with
  | Ok first =>
      (∃ rest,
         ResNetV1b._make_layer stage_index block planes blocks strides
           dilation avg_down norm_layer last_gamma data_format st
         = (Ok (stage_of stage_index first rest), after_stage st block planes))
      ∧ layer_dilation (block_strided_conv first) = Some 1
      ∧ (∀ bb, first = Basic bb →
           layer_dilation (BasicBlockV1b.conv2 bb) = Some dilation)
  | Raise e =>
      ResNetV1b._make_layer stage_index block planes blocks strides dilation
        avg_down norm_layer last_gamma data_format st = (Raise e, st)
  end.
Proof.
  intros Hd.
  destruct (block_call block planes strides 1 _ dilation norm_layer
              (norm_kwargs st) last_gamma data_format)
    as [first | e] eqn:Hfirst.
  - split; [|split].
    + destruct (make_layer_from_first stage_index block planes blocks strides
                  dilation avg_down norm_layer last_gamma data_format st 1
                  first Hfirst) as (b & _ & Heq); [auto|].
      eauto.
    + apply block_call_downsample in Hfirst. tauto.
    + intros bb ->. destruct block; [|].
      * cbn in Hfirst. injection Hfirst as <-. reflexivity.
      * unfold block_call, result_map, result_bind in Hfirst.
        destruct (BottleneckV1b.__init__ _ _ _ _ _ _ _ _ _ _); discriminate.
  - apply (make_layer_first_raises _ _ _ _ _ _ _ _ _ _ _ 1 e Hfirst). auto.
Qed.

Lemma C1_first_block_dilation_1_or_2_witness :
  ∃ first rest,
    ResNetV1b._make_layer 3 BasicBlockV1b_class 256 2 1 2 false
      BatchNormalization false "channels_last"
      {| inplanes := 128; norm_kwargs := ∅ |}
    = (Ok (stage_of 3 first rest),
       {| inplanes := 256; norm_kwargs := ∅ |})
    ∧ layer_dilation (block_strided_conv first) = Some 1.
Proof.
  pose proof (C1_first_block_dilation_1_or_2 3 BasicBlockV1b_class 256 2 1 2
                false BatchNormalization false "channels_last"
                {| inplanes := 128; norm_kwargs := ∅ |}
                (or_intror eq_refl)) as H.
  cbn [block_call] in H. destruct H as ((rest & Hrun) & Hdil & _).
  eexists _, rest. split; [exact Hrun | exact Hdil].
Defined.

(** C1 as stated fails at requested dilation 2: in stage 3 of a dilated
    basic-block network the first block has dilation rate 1, not 2, and it
    is not the block the constructor returns for own dilation 2. *)
Lemma C1_dilation_2_not_passed_through :
  ∃ first rest st',
    ResNetV1b._make_layer 3 BasicBlockV1b_class 256 2 1 2 false
      BatchNormalization false "channels_last"
      {| inplanes := 128; norm_kwargs := ∅ |}
    = (Ok (stage_of 3 first rest), st')
    ∧ layer_dilation (block_strided_conv first) = Some 1
    ∧ layer_dilation (block_strided_conv first) ≠ Some 2
    ∧ block_call BasicBlockV1b_class 256 1 2
        (ResNetV1b.make_downsample {| inplanes := 128; norm_kwargs := ∅ |}
           3 BasicBlockV1b_class 256 1 2 false BatchNormalization
           "channels_last")
        2 BatchNormalization ∅ false "channels_last" ≠ Ok first.
Proof.
  eexists _, _, _. split; [vm_compute; reflexivity|].
  split; [reflexivity|]. split; [discriminate|].
  vm_compute. intros [=].
Qed.

(** C2.  For a requested dilation of 4 the stage builder calls the block
    constructor of the first block with own dilation 2 and
    previous-dilation 4, and its outcome is the outcome of that call: the
    block heads the returned stage, with dilation rate 2 on its strided
    convolution.  For a requested dilation other than 1, 2 and 4 the
    stage builder raises RuntimeError, whatever its other arguments, with
    no stage returned and [self] unchanged: the error belongs to
    construction. *)
Theorem C2_dilation_4_and_unknown_dilation stage_index block planes blocks
    strides dilation avg_down norm_layer last_gamma data_format st :
  (dilation = 4 →
   match block_call block planes strides 2
           (ResNetV1b.make_downsample st stage_index block planes strides
              4 avg_down norm_layer data_format)
           4 norm_layer (norm_kwargs st) last_gamma data_format with
   | Ok first =>
       (∃ rest,
          ResNetV1b._make_layer stage_index block planes blocks strides
            dilation avg_down norm_layer last_gamma data_format st
          = (Ok (stage_of stage_index first rest), after_stage st block planes))
       ∧ layer_dilation (block_strided_conv first) = Some 2
       ∧ (∀ bb, first = Basic bb →
            layer_dilation (BasicBlockV1b.conv2 bb) = Some 4)
   | Raise e =>
       ResNetV1b._make_layer stage_index block planes blocks strides dilation
         avg_down norm_layer last_gamma data_format st = (Raise e, st)
   end)
  ∧ (dilation ≠ 1 → dilation ≠ 2 → dilation ≠ 4 →
     ResNetV1b._make_layer stage_index block planes blocks strides dilation
       avg_down norm_layer last_gamma data_format st
     = (Raise (RuntimeError ("=> unknown dilation size: " +:+ pretty dilation)),
        st)).
Proof.
  split; [|apply make_layer_unknown_dilation].
  intros ->.
  destruct (block_call block planes strides 2 _ 4 norm_layer
              (norm_kwargs st) last_gamma data_format)
    as [first | e] eqn:Hfirst.
  - split; [|split].
    + destruct (make_layer_from_first stage_index block planes blocks strides
                  4 avg_down norm_layer last_gamma data_format st 2
                  first Hfirst) as (b & _ & Heq); [auto|].
      eauto.
    + apply block_call_downsample in Hfirst. tauto.
    + intros bb ->. destruct block; [|].
      * cbn in Hfirst. injection Hfirst as <-. reflexivity.
      * unfold block_call, result_map, result_bind in Hfirst.
        destruct (BottleneckV1b.__init__ _ _ _ _ _ _ _ _ _ _); discriminate.
  - apply (make_layer_first_raises _ _ _ _ _ _ _ _ _ _ _ 2 e Hfirst). auto.
Qed.

Lemma C2_dilation_4_and_unknown_dilation_witness :
  (∃ first rest,
     ResNetV1b._make_layer 4 BottleneckV1b_class 512 3 1 4 false
       BatchNormalization false "channels_last"
       {| inplanes := 1024; norm_kwargs := ∅ |}
     = (Ok (stage_of 4 first rest),
        {| inplanes := 2048; norm_kwargs := ∅ |})
     ∧ layer_dilation (block_strided_conv first) = Some 2)
  ∧ ResNetV1b._make_layer 4 BottleneckV1b_class 512 3 1 3 false
      BatchNormalization false "channels_last"
      {| inplanes := 1024; norm_kwargs := ∅ |}
    = (Raise (RuntimeError "=> unknown dilation size: 3"),
       {| inplanes := 1024; norm_kwargs := ∅ |}).
Proof.
  split.
  - destruct (C2_dilation_4_and_unknown_dilation 4 BottleneckV1b_class 512 3 1
                4 false BatchNormalization false "channels_last"
                {| inplanes := 1024; norm_kwargs := ∅ |}) as [H _].
    specialize (H eq_refl). cbn in H. destruct H as ((rest & Hrun) & Hdil & _).
    eexists _, rest. split; [exact Hrun | exact Hdil].
  - destruct (C2_dilation_4_and_unknown_dilation 4 BottleneckV1b_class 512 3 1
                3 false BatchNormalization false "channels_last"
                {| inplanes := 1024; norm_kwargs := ∅ |}) as [_ H].
    apply H; discriminate.
Defined.

(** ** The downsample sub-graph *)

(** C3.  In every stage the stage builder returns, the first block
    carries a downsample sub-graph if and only if the stride is not 1 or
    [inplanes] at the call differs from planes times expansion; otherwise
    its downsample is absent; the blocks after the first, [blocks - 1] of
    them, carry none. *)
Theorem C3_downsample_iff stage_index block planes blocks strides dilation
    avg_down norm_layer last_gamma data_format st stage st' :
  ResNetV1b._make_layer stage_index block planes blocks strides dilation
    avg_down norm_layer last_gamma data_format st = (Ok stage, st') →
  ∃ first rest,
    seq_items stage = first :: rest
    ∧ (is_Some (block_downsample first)
       ↔ strides ≠ 1 ∨ inplanes st ≠ planes * expansion block)
    ∧ (¬ (strides ≠ 1 ∨ inplanes st ≠ planes * expansion block) →
       block_downsample first = None)
    ∧ Forall (λ b, block_downsample b = None) rest
    ∧ length rest = Z.to_nat (blocks - 1).
Proof.
  intros Hrun.
  apply make_layer_inv in Hrun
    as (d & first & b & _ & Hfirst & Hb & -> & _).
  exists first, (replicate (Z.to_nat (blocks - 1)) b).
  apply block_call_downsample in Hfirst as (Hds & _).
  apply block_call_downsample in Hb as (Hnone & _).
  rewrite Hds. unfold ResNetV1b.make_downsample.
  split; [reflexivity|]. split; [|split; [|split]].
  - destruct (decide (strides ≠ 1 ∨ inplanes st ≠ planes * expansion block))
      as [Hneed | Hneed].
    + split; [intros _; exact Hneed | intros _; eexists; reflexivity].
    + split; [intros [x Hx]; discriminate | intros H; contradiction].
  - intros Hneed. rewrite decide_False by exact Hneed. reflexivity.
  - apply Forall_replicate. exact Hnone.
  - apply length_replicate.
Qed.

Lemma C3_downsample_iff_witness :
  ∃ stage first rest,
    ResNetV1b._make_layer 1 BottleneckV1b_class 64 3 1 1 false
      BatchNormalization false "channels_last"
      {| inplanes := 64; norm_kwargs := ∅ |}
    = (Ok stage, {| inplanes := 256; norm_kwargs := ∅ |})
    ∧ seq_items stage = first :: rest
    ∧ (is_Some (block_downsample first) ↔ (1 ≠ 1 ∨ 64 ≠ 64 * 4))
    ∧ Forall (λ b, block_downsample b = None) rest
    ∧ length rest = 2%nat.
Proof.
  let r := eval vm_compute in
    (ResNetV1b._make_layer 1 BottleneckV1b_class 64 3 1 1 false
       BatchNormalization false "channels_last"
       {| inplanes := 64; norm_kwargs := ∅ |}) in
  match r with
  | (Ok ?stage, ?s') =>
      assert (Hrun :
        ResNetV1b._make_layer 1 BottleneckV1b_class 64 3 1 1 false
          BatchNormalization false "channels_last"
          {| inplanes := 64; norm_kwargs := ∅ |} = (Ok stage, s'))
        by (vm_compute; reflexivity);
      destruct (C3_downsample_iff _ _ _ _ _ _ _ _ _ _ _ _ _ Hrun)
        as (first & rest & Hitems & Hiff & _ & Hrest & Hlen);
      exists stage, first, rest
  end.
  split; [exact Hrun|]. split; [exact Hitems|]. split; [exact Hiff|].
  split; [exact Hrest | exact Hlen].
Defined.

(** C6.  In every stage the stage builder returns for a call that needs a
    downsample, the sub-graph of the first block is the list named
    [down<i>] holding: with average-down, an average pool (pool size and
    pool stride both the stage stride when the dilation is 1, both 1
    otherwise), a 1x1 convolution with planes times expansion filters at
    stride 1, and a normalization layer; without average-down, a 1x1
    convolution with planes times expansion filters at the stage stride
    and a normalization layer. *)
Theorem C6_downsample_subgraph stage_index block planes blocks strides dilation
    avg_down norm_layer last_gamma data_format st stage st' :
  ResNetV1b._make_layer stage_index block planes blocks strides dilation
    avg_down norm_layer last_gamma data_format st = (Ok stage, st') →
  strides ≠ 1 ∨ inplanes st ≠ planes * expansion block →
  ∃ first rest,
    seq_items stage = first :: rest
    ∧ block_downsample first
      = Some
          {| seq_name := "down" +:+ pretty stage_index;
             seq_items :=
               if avg_down then
                 [ AveragePooling2D
                     (if decide (dilation = 1) then strides else 1)
                     (if decide (dilation = 1) then strides else 1)
                     "same" data_format;
                   Conv2D {| filters := planes * expansion block;
                             kernel_size := 1; nn.strides := Some 1;
                             padding := None; dilation_rate := None;
                             use_bias := false;
                             nn.data_format := data_format |};
                   Norm norm_layer (norm_kwargs st) ]
               else
                 [ Conv2D {| filters := planes * expansion block;
                             kernel_size := 1; nn.strides := Some strides;
                             padding := None; dilation_rate := None;
                             use_bias := false;
                             nn.data_format := data_format |};
                   Norm norm_layer (norm_kwargs st) ] |}.
Proof.
  intros Hrun Hneed.
  apply make_layer_inv in Hrun
    as (d & first & b & _ & Hfirst & _ & -> & _).
  exists first, (replicate (Z.to_nat (blocks - 1)) b).
  apply block_call_downsample in Hfirst as (Hds & _).
  split; [reflexivity|]. rewrite Hds. unfold ResNetV1b.make_downsample.
  rewrite decide_True by exact Hneed.
  destruct avg_down; [|reflexivity].
  destruct (decide (dilation = 1)); reflexivity.
Qed.

Lemma C6_downsample_subgraph_witness :
  ∃ stage first rest,
    ResNetV1b._make_layer 2 BottleneckV1b_class 128 4 2 1 true
      BatchNormalization false "channels_last"
      {| inplanes := 256; norm_kwargs := ∅ |}
    = (Ok stage, {| inplanes := 512; norm_kwargs := ∅ |})
    ∧ seq_items stage = first :: rest
    ∧ block_downsample first
      = Some
          {| seq_name := "down2";
             seq_items :=
               [ AveragePooling2D 2 2 "same" "channels_last";
                 Conv2D {| filters := 512; kernel_size := 1;
                           nn.strides := Some 1; padding := None;
                           dilation_rate := None; use_bias := false;
                           nn.data_format := "channels_last" |};
                 Norm BatchNormalization ∅ ] |}.
Proof.
  let r := eval vm_compute in
    (ResNetV1b._make_layer 2 BottleneckV1b_class 128 4 2 1 true
       BatchNormalization false "channels_last"
       {| inplanes := 256; norm_kwargs := ∅ |}) in
  match r with
  | (Ok ?stage, ?s') =>
      assert (Hrun :
        ResNetV1b._make_layer 2 BottleneckV1b_class 128 4 2 1 true
          BatchNormalization false "channels_last"
          {| inplanes := 256; norm_kwargs := ∅ |} = (Ok stage, s'))
        by (vm_compute; reflexivity);
      destruct (C6_downsample_subgraph _ _ _ _ _ _ _ _ _ _ _ _ _ Hrun)
        as (first & rest & Hitems & Hds); [left; discriminate|];
      exists stage, first, rest
  end.
  split; [exact Hrun|]. split; [exact Hitems | exact Hds].
Defined.

(** ** The network assembler *)

Lemma bind_ok {A B} (m : Build A) (k : A → Build B) st b st' :
  bind m k st = (Ok b, st') →
  ∃ a st1, m st = (Ok a, st1) ∧ k a st1 = (Ok b, st').
Proof.
  unfold bind. destruct (m st) as [[a | e] st1]; [eauto | discriminate].
Qed.

Lemma lift_index_ok (layers : list Z) (i : nat) st n st' :
  lift (py_index layers i) st = (Ok n, st') → layers !! i = Some n ∧ st' = st.
Proof.
  unfold lift, py_index. destruct (layers !! i); [|discriminate].
  intros [= -> ->]. auto.
Qed.

(** The four stage builder calls of a returning assembly, with the
    [inplanes] each one starts from. *)
Lemma make_stages_inv block layers dilated norm_layer last_gamma avg_down
    data_format st l1 l2 l3 l4 st' :
  ResNetV1b.make_stages block layers dilated norm_layer last_gamma avg_down
    data_format st = (Ok (l1, l2, l3, l4), st') →
  ∃ n1 n2 n3 n4,
    layers !! 0%nat = Some n1 ∧ layers !! 1%nat = Some n2
    ∧ layers !! 2%nat = Some n3 ∧ layers !! 3%nat = Some n4
    ∧ ResNetV1b._make_layer 1 block 64 n1 1 1 avg_down norm_layer last_gamma
        data_format st = (Ok l1, after_stage st block 64)
    ∧ ResNetV1b._make_layer 2 block 128 n2 2 1 avg_down norm_layer last_gamma
        data_format (after_stage st block 64)
      = (Ok l2, after_stage st block 128)
    ∧ ResNetV1b._make_layer 3 block 256 n3 (if dilated then 1 else 2)
        (if dilated then 2 else 1) avg_down norm_layer last_gamma
        data_format (after_stage st block 128)
      = (Ok l3, after_stage st block 256)
    ∧ ResNetV1b._make_layer 4 block 512 n4 (if dilated then 1 else 2)
        (if dilated then 4 else 1) avg_down norm_layer last_gamma
        data_format (after_stage st block 256)
      = (Ok l4, after_stage st block 512)
    ∧ st' = after_stage st block 512.
Proof.
  unfold ResNetV1b.make_stages. intros H.
  apply bind_ok in H as (n1 & s & Hn1 & H).
  apply lift_index_ok in Hn1 as [Hn1 ->].
  apply bind_ok in H as (x1 & s1 & H1 & H).
  pose proof (make_layer_inv _ _ _ _ _ _ _ _ _ _ _ _ _ H1)
    as (_ & _ & _ & _ & _ & _ & _ & ->).
  apply bind_ok in H as (n2 & s & Hn2 & H).
  apply lift_index_ok in Hn2 as [Hn2 ->].
  apply bind_ok in H as (x2 & s2 & H2 & H).
  pose proof (make_layer_inv _ _ _ _ _ _ _ _ _ _ _ _ _ H2)
    as (_ & _ & _ & _ & _ & _ & _ & ->).
  change (after_stage (after_stage st block 64) block 128)
    with (after_stage st block 128) in *.
  exists n1, n2.
  destruct dilated.
  - apply bind_ok in H as (n3 & s & Hn3 & H).
    apply lift_index_ok in Hn3 as [Hn3 ->].
    apply bind_ok in H as (x3 & s3 & H3 & H).
    pose proof (make_layer_inv _ _ _ _ _ _ _ _ _ _ _ _ _ H3)
      as (_ & _ & _ & _ & _ & _ & _ & ->).
    apply bind_ok in H as (n4 & s & Hn4 & H).
    apply lift_index_ok in Hn4 as [Hn4 ->].
    apply bind_ok in H as (x4 & s4 & H4 & H).
    pose proof (make_layer_inv _ _ _ _ _ _ _ _ _ _ _ _ _ H4)
      as (_ & _ & _ & _ & _ & _ & _ & ->).
    change (after_stage (after_stage st block 128) block 256)
      with (after_stage st block 256) in *.
    change (after_stage (after_stage st block 256) block 512)
      with (after_stage st block 512) in *.
    unfold ret in H. injection H as -> -> -> -> <-.
    exists n3, n4. auto 10.
  - apply bind_ok in H as (n3 & s & Hn3 & H).
    apply lift_index_ok in Hn3 as [Hn3 ->].
    apply bind_ok in H as (x3 & s3 & H3 & H).
    pose proof (make_layer_inv _ _ _ _ _ _ _ _ _ _ _ _ _ H3)
      as (_ & _ & _ & _ & _ & _ & _ & ->).
    apply bind_ok in H as (n4 & s & Hn4 & H).
    apply lift_index_ok in Hn4 as [Hn4 ->].
    apply bind_ok in H as (x4 & s4 & H4 & H).
    pose proof (make_layer_inv _ _ _ _ _ _ _ _ _ _ _ _ _ H4)
      as (_ & _ & _ & _ & _ & _ & _ & ->).
    change (after_stage (after_stage st block 128) block 256)
      with (after_stage st block 256) in *.
    change (after_stage (after_stage st block 256) block 512)
      with (after_stage st block 512) in *.
    unfold ret in H. injection H as -> -> -> -> <-.
    exists n3, n4. auto 10.
Qed.

(** The stages are built, and the assembler returns, whenever the count
    list has its four entries and the block constructors return. *)
Lemma make_stages_returns block n1 n2 n3 n4 more dilated norm_layer last_gamma
    avg_down data_format st :
  ctor_ok block last_gamma (norm_kwargs st) →
  ∃ stages,
    ResNetV1b.make_stages block (n1 :: n2 :: n3 :: n4 :: more) dilated
      norm_layer last_gamma avg_down data_format st
    = (Ok stages, after_stage st block 512).
Proof.
  intros Hok. unfold ResNetV1b.make_stages.
  unfold bind at 1. unfold lift at 1. cbn [py_index lookup list_lookup].
  destruct (make_layer_returns 1 block 64 n1 1 1 avg_down norm_layer
              last_gamma data_format st) as [l1 H1]; [auto | exact Hok |].
  unfold bind at 1. rewrite H1.
  unfold bind at 1. unfold lift at 1. cbn [py_index lookup list_lookup].
  destruct (make_layer_returns 2 block 128 n2 2 1 avg_down norm_layer
              last_gamma data_format (after_stage st block 64))
    as [l2 H2]; [auto | exact Hok |].
  unfold bind at 1. rewrite H2.
  destruct dilated.
  - unfold bind at 1. unfold lift at 1. cbn [py_index lookup list_lookup].
    destruct (make_layer_returns 3 block 256 n3 1 2 avg_down norm_layer
                last_gamma data_format
                (after_stage (after_stage st block 64) block 128))
      as [l3 H3]; [auto | exact Hok |].
    unfold bind at 1. rewrite H3.
    unfold bind at 1. unfold lift at 1. cbn [py_index lookup list_lookup].
    destruct (make_layer_returns 4 block 512 n4 1 4 avg_down norm_layer
                last_gamma data_format
                (after_stage (after_stage (after_stage st block 64) block 128)
                   block 256))
      as [l4 H4]; [auto | exact Hok |].
    unfold bind at 1. rewrite H4. unfold ret. eauto.
  - unfold bind at 1. unfold lift at 1. cbn [py_index lookup list_lookup].
    destruct (make_layer_returns 3 block 256 n3 2 1 avg_down norm_layer
                last_gamma data_format
                (after_stage (after_stage st block 64) block 128))
      as [l3 H3]; [auto | exact Hok |].
    unfold bind at 1. rewrite H3.
    unfold bind at 1. unfold lift at 1. cbn [py_index lookup list_lookup].
    destruct (make_layer_returns 4 block 512 n4 2 1 avg_down norm_layer
                last_gamma data_format
                (after_stage (after_stage (after_stage st block 64) block 128)
                   block 256))
      as [l4 H4]; [auto | exact Hok |].
    unfold bind at 1. rewrite H4. unfold ret. eauto.
Qed.

Lemma init_returns block n1 n2 n3 n4 more classes data_format dilated
    norm_layer nk last_gamma deep_stem stem_width avg_down final_drop
    name_prefix kwargs :
  ctor_ok block last_gamma nk →
  ∃ net,
    ResNetV1b.__init__ block (n1 :: n2 :: n3 :: n4 :: more) classes data_format
      dilated norm_layer nk last_gamma deep_stem stem_width avg_down final_drop
      name_prefix kwargs = Ok net.
Proof.
  intros Hok. unfold ResNetV1b.__init__.
  destruct (make_stages_returns block n1 n2 n3 n4 more dilated norm_layer
              last_gamma avg_down data_format
              {| inplanes := if deep_stem then stem_width * 2 else 64;
                 norm_kwargs := nk |} Hok) as [[[[l1 l2] l3] l4] H].
  rewrite H. eauto.
Qed.

(** What a returning assembly is made of. *)
Lemma init_inv block layers classes data_format dilated norm_layer nk
    last_gamma deep_stem stem_width avg_down final_drop name_prefix kwargs net :
  ResNetV1b.__init__ block layers classes data_format dilated norm_layer nk
    last_gamma deep_stem stem_width avg_down final_drop name_prefix kwargs
  = Ok net →
  ResNetV1b.make_stages block layers dilated norm_layer last_gamma avg_down
    data_format
    {| inplanes := if deep_stem then stem_width * 2 else 64;
       norm_kwargs := nk |}
  = (Ok (ResNetV1b.layer1 net, ResNetV1b.layer2 net,
         ResNetV1b.layer3 net, ResNetV1b.layer4 net), ResNetV1b.attrs net)
  ∧ ResNetV1b.conv1 net
    = ResNetV1b.make_stem deep_stem stem_width norm_layer nk data_format
  ∧ ResNetV1b.bn1 net = Norm norm_layer nk
  ∧ ResNetV1b.relu net = Activation "relu".
Proof.
  unfold ResNetV1b.__init__.
  destruct (ResNetV1b.make_stages _ _ _ _ _ _ _ _)
    as [[[[[l1 l2] l3] l4] | e] s]; [|discriminate].
  intros [= <-]. auto.
Qed.

Lemma make_layer_first_strides stage_index block planes blocks strides dilation
    avg_down norm_layer last_gamma data_format st stage st' :
  ResNetV1b._make_layer stage_index block planes blocks strides dilation
    avg_down norm_layer last_gamma data_format st = (Ok stage, st') →
  stage_first_strides stage = Some strides.
Proof.
  intros Hrun.
  apply make_layer_inv in Hrun as (d & first & b & _ & Hfirst & _ & -> & _).
  apply block_call_downsample in Hfirst as (_ & Hs & _).
  unfold stage_first_strides, stage_of. cbn. by rewrite Hs.
Qed.

(** C4.  In every assembled network the four stages are the returns of
    the stage builder called, in order, with planes 64, 128, 256, 512 and
    the counts of [layers], each call starting from the [inplanes] the
    previous one left: stage 1 with stride 1 and stage 2 with stride
    2 (dilation 1) in both modes; stage 3 with stride 1 and dilation 2
    and stage 4 with stride 1 and dilation 4 when [dilated], both with
    stride 2 and dilation 1 otherwise.  The stride shows as the stride
    attribute of each stage's first block. *)
Theorem C4_stage_strides_and_dilations block layers classes data_format
    dilated norm_layer nk last_gamma deep_stem stem_width avg_down final_drop
    name_prefix kwargs net :
  ResNetV1b.__init__ block layers classes data_format dilated norm_layer nk
    last_gamma deep_stem stem_width avg_down final_drop name_prefix kwargs
  = Ok net →
  let s1 := {| inplanes := if deep_stem then stem_width * 2 else 64;
              norm_kwargs := nk |} in
  ∃ n1 n2 n3 n4,
    layers !! 0%nat = Some n1 ∧ layers !! 1%nat = Some n2
    ∧ layers !! 2%nat = Some n3 ∧ layers !! 3%nat = Some n4
    ∧ ResNetV1b._make_layer 1 block 64 n1 1 1 avg_down norm_layer last_gamma
        data_format s1
      = (Ok (ResNetV1b.layer1 net), after_stage s1 block 64)
    ∧ ResNetV1b._make_layer 2 block 128 n2 2 1 avg_down norm_layer last_gamma
        data_format (after_stage s1 block 64)
      = (Ok (ResNetV1b.layer2 net), after_stage s1 block 128)
    ∧ ResNetV1b._make_layer 3 block 256 n3 (if dilated then 1 else 2)
        (if dilated then 2 else 1) avg_down norm_layer last_gamma
        data_format (after_stage s1 block 128)
      = (Ok (ResNetV1b.layer3 net), after_stage s1 block 256)
    ∧ ResNetV1b._make_layer 4 block 512 n4 (if dilated then 1 else 2)
        (if dilated then 4 else 1) avg_down norm_layer last_gamma
        data_format (after_stage s1 block 256)
      = (Ok (ResNetV1b.layer4 net), ResNetV1b.attrs net)
    ∧ stage_first_strides (ResNetV1b.layer1 net) = Some 1
    ∧ stage_first_strides (ResNetV1b.layer2 net) = Some 2
    ∧ stage_first_strides (ResNetV1b.layer3 net)
      = Some (if dilated then 1 else 2)
    ∧ stage_first_strides (ResNetV1b.layer4 net)
      = Some (if dilated then 1 else 2).
Proof.
  intros Hinit s1. apply init_inv in Hinit as (Hstages & _).
  apply make_stages_inv in Hstages
    as (n1 & n2 & n3 & n4 & Hn1 & Hn2 & Hn3 & Hn4 & H1 & H2 & H3 & H4 & Hst).
  fold s1 in H1, H2, H3, H4, Hst. rewrite <- Hst in H4.
  exists n1, n2, n3, n4.
  do 4 (split; [eassumption|]).
  split; [exact H1|]. split; [exact H2|]. split; [exact H3|].
  split; [exact H4|].
  split; [exact (make_layer_first_strides _ _ _ _ _ _ _ _ _ _ _ _ _ H1)|].
  split; [exact (make_layer_first_strides _ _ _ _ _ _ _ _ _ _ _ _ _ H2)|].
  split; [exact (make_layer_first_strides _ _ _ _ _ _ _ _ _ _ _ _ _ H3)|].
  exact (make_layer_first_strides _ _ _ _ _ _ _ _ _ _ _ _ _ H4).
Qed.

Lemma C4_stage_strides_and_dilations_witness :
  ∃ net,
    ResNetV1b.__init__ BasicBlockV1b_class [2; 2; 2; 2] 1000 "channels_last"
      true BatchNormalization ∅ false false 32 false 0%Q "resnetv1b" ∅
    = Ok net
    ∧ stage_first_strides (ResNetV1b.layer1 net) = Some 1
    ∧ stage_first_strides (ResNetV1b.layer2 net) = Some 2
    ∧ stage_first_strides (ResNetV1b.layer3 net) = Some 1
    ∧ stage_first_strides (ResNetV1b.layer4 net) = Some 1.
Proof.
  let r := eval vm_compute in
    (ResNetV1b.__init__ BasicBlockV1b_class [2; 2; 2; 2] 1000 "channels_last"
       true BatchNormalization ∅ false false 32 false 0%Q "resnetv1b" ∅) in
  match r with
  | Ok ?net =>
      assert (Hinit :
        ResNetV1b.__init__ BasicBlockV1b_class [2; 2; 2; 2] 1000
          "channels_last" true BatchNormalization ∅ false false 32 false 0%Q
          "resnetv1b" ∅ = Ok net) by (vm_compute; reflexivity);
      destruct (C4_stage_strides_and_dilations _ _ _ _ _ _ _ _ _ _ _ _ _ _ _
                  Hinit)
        as (n1 & n2 & n3 & n4 & _ & _ & _ & _ & _ & _ & _ & _
            & Hs1 & Hs2 & Hs3 & Hs4);
      exists net
  end.
  split; [exact Hinit|]. split; [exact Hs1|]. split; [exact Hs2|].
  split; [exact Hs3 | exact Hs4].
Defined.

(** C5.  In every assembled network without deep stem the stem is one
    7x7 convolution with 64 filters, stride 2 and no bias; with deep stem
    it is the list named [conv1] of three 3x3 convolutions without bias,
    with [stem_width], [stem_width] and [stem_width * 2] filters and
    strides 2, 1 and 1, the first two each followed by a normalization
    layer and a ReLU activation and nothing after the third.  The
    network's own [bn1] and [relu] follow the stem in both cases. *)
Theorem C5_stem block layers classes data_format dilated norm_layer nk
    last_gamma deep_stem stem_width avg_down final_drop name_prefix kwargs net :
  ResNetV1b.__init__ block layers classes data_format dilated norm_layer nk
    last_gamma deep_stem stem_width avg_down final_drop name_prefix kwargs
  = Ok net →
  (deep_stem = false →
   ResNetV1b.conv1 net
   = Single (Conv2D {| filters := 64; kernel_size := 7; nn.strides := Some 2;
                       padding := Some "same"; dilation_rate := None;
                       use_bias := false; nn.data_format := data_format |}))
  ∧ (deep_stem = true →
     ResNetV1b.conv1 net
     = Sequence
         {| seq_name := "conv1";
            seq_items :=
              [ Conv2D {| filters := stem_width; kernel_size := 3;
                          nn.strides := Some 2; padding := Some "same";
                          dilation_rate := None; use_bias := false;
                          nn.data_format := data_format |};
                Norm norm_layer nk;
                Activation "relu";
                Conv2D {| filters := stem_width; kernel_size := 3;
                          nn.strides := Some 1; padding := Some "same";
                          dilation_rate := None; use_bias := false;
                          nn.data_format := data_format |};
                Norm norm_layer nk;
                Activation "relu";
                Conv2D {| filters := stem_width * 2; kernel_size := 3;
                          nn.strides := Some 1; padding := Some "same";
                          dilation_rate := None; use_bias := false;
                          nn.data_format := data_format |} ] |})
  ∧ ResNetV1b.bn1 net = Norm norm_layer nk
  ∧ ResNetV1b.relu net = Activation "relu".
Proof.
  intros Hinit. apply init_inv in Hinit as (_ & Hstem & Hbn & Hrelu).
  rewrite Hstem. unfold ResNetV1b.make_stem.
  split; [intros ->; reflexivity|]. split; [intros ->; reflexivity|].
  auto.
Qed.

Lemma C5_stem_witness :
  ∃ net,
    ResNetV1b.__init__ BottleneckV1b_class [3; 4; 6; 3] 1000 "channels_last"
      false BatchNormalization ∅ false true 32 false 0%Q "resnetv1c_" ∅
    = Ok net
    ∧ ResNetV1b.conv1 net
      = Sequence
          {| seq_name := "conv1";
             seq_items :=
               [ Conv2D {| filters := 32; kernel_size := 3;
                           nn.strides := Some 2; padding := Some "same";
                           dilation_rate := None; use_bias := false;
                           nn.data_format := "channels_last" |};
                 Norm BatchNormalization ∅;
                 Activation "relu";
                 Conv2D {| filters := 32; kernel_size := 3;
                           nn.strides := Some 1; padding := Some "same";
                           dilation_rate := None; use_bias := false;
                           nn.data_format := "channels_last" |};
                 Norm BatchNormalization ∅;
                 Activation "relu";
                 Conv2D {| filters := 64; kernel_size := 3;
                           nn.strides := Some 1; padding := Some "same";
                           dilation_rate := None; use_bias := false;
                           nn.data_format := "channels_last" |} ] |}.
Proof.
  let r := eval vm_compute in
    (ResNetV1b.__init__ BottleneckV1b_class [3; 4; 6; 3] 1000 "channels_last"
       false BatchNormalization ∅ false true 32 false 0%Q "resnetv1c_" ∅) in
  match r with
  | Ok ?net =>
      assert (Hinit :
        ResNetV1b.__init__ BottleneckV1b_class [3; 4; 6; 3] 1000
          "channels_last" false BatchNormalization ∅ false true 32 false 0%Q
          "resnetv1c_" ∅ = Ok net) by (vm_compute; reflexivity);
      destruct (C5_stem _ _ _ _ _ _ _ _ _ _ _ _ _ _ _ Hinit)
        as (_ & Hdeep & _);
      exists net
  end.
  split; [exact Hinit | exact (Hdeep eq_refl)].
Defined.

(** C9.  The assembler starts the first stage builder call with
    [inplanes] at [stem_width * 2] under deep stem and at 64 otherwise;
    every stage builder call that returns leaves [inplanes] at planes
    times expansion; so every assembled network ends with [inplanes] at
    512 times expansion, 512 for basic blocks and 2048 for bottlenecks,
    whatever the other arguments; and the assembler does return on every
    count list of four entries or more whose block constructors return. *)
Theorem C9_inplanes block avg_down norm_layer last_gamma data_format :
  (∀ stage_index planes blocks strides dilation st stage st',
     ResNetV1b._make_layer stage_index block planes blocks strides dilation
       avg_down norm_layer last_gamma data_format st = (Ok stage, st') →
     inplanes st' = planes * expansion block)
  ∧ (∀ layers classes dilated nk deep_stem stem_width final_drop name_prefix
       kwargs net,
       ResNetV1b.__init__ block layers classes data_format dilated norm_layer
         nk last_gamma deep_stem stem_width avg_down final_drop name_prefix
         kwargs = Ok net →
       (∃ n1 s,
          layers !! 0%nat = Some n1
          ∧ inplanes s = (if deep_stem then stem_width * 2 else 64)
          ∧ ResNetV1b._make_layer 1 block 64 n1 1 1 avg_down norm_layer
              last_gamma data_format s
            = (Ok (ResNetV1b.layer1 net), after_stage s block 64))
       ∧ inplanes (ResNetV1b.attrs net) = 512 * expansion block
       ∧ inplanes (ResNetV1b.attrs net)
         = match block with
           | BasicBlockV1b_class => 512
           | BottleneckV1b_class => 2048
           end)
  ∧ (∀ n1 n2 n3 n4 more classes dilated nk deep_stem stem_width final_drop
       name_prefix kwargs,
       ctor_ok block last_gamma nk →
       ∃ net,
         ResNetV1b.__init__ block (n1 :: n2 :: n3 :: n4 :: more) classes
           data_format dilated norm_layer nk last_gamma deep_stem stem_width
           avg_down final_drop name_prefix kwargs = Ok net
         ∧ inplanes (ResNetV1b.attrs net) = 512 * expansion block).
Proof.
  split; [|split].
  - intros stage_index planes blocks strides dilation st stage st' Hrun.
    apply make_layer_inv in Hrun as (_ & _ & _ & _ & _ & _ & _ & ->).
    reflexivity.
  - intros layers classes dilated nk deep_stem stem_width final_drop
      name_prefix kwargs net Hinit.
    apply init_inv in Hinit as (Hstages & _).
    apply make_stages_inv in Hstages
      as (n1 & n2 & n3 & n4 & Hn1 & _ & _ & _ & H1 & _ & _ & _ & ->).
    split; [|split].
    + eexists n1, _. split; [exact Hn1|]. split; [|exact H1]. reflexivity.
    + reflexivity.
    + destruct block; reflexivity.
  - intros n1 n2 n3 n4 more classes dilated nk deep_stem stem_width final_drop
      name_prefix kwargs Hok.
    destruct (init_returns block n1 n2 n3 n4 more classes data_format dilated
                norm_layer nk last_gamma deep_stem stem_width avg_down
                final_drop name_prefix kwargs Hok) as [net Hinit].
    exists net. split; [exact Hinit|].
    apply init_inv in Hinit as (Hstages & _).
    apply make_stages_inv in Hstages
      as (? & ? & ? & ? & _ & _ & _ & _ & _ & _ & _ & _ & ->).
    reflexivity.
Qed.

Lemma C9_inplanes_witness :
  (∃ stage st',
     ResNetV1b._make_layer 2 BottleneckV1b_class 128 4 2 1 false
       BatchNormalization false "channels_last"
       {| inplanes := 256; norm_kwargs := ∅ |} = (Ok stage, st')
     ∧ inplanes st' = 512)
  ∧ (∃ net,
       ResNetV1b.__init__ BottleneckV1b_class [3; 4; 6; 3] 1000
         "channels_last" false BatchNormalization ∅ false true 64 false 0%Q
         "resnetv1s_" ∅ = Ok net
       ∧ inplanes (ResNetV1b.attrs net) = 2048)
  ∧ (∃ net,
       ResNetV1b.__init__ BottleneckV1b_class [3; 8; 36; 3] 10
         "channels_first" true BatchNormalization ∅ false false 32 false 0%Q
         "" ∅ = Ok net
       ∧ inplanes (ResNetV1b.attrs net) = 512 * 4).
Proof.
  destruct (C9_inplanes BottleneckV1b_class false BatchNormalization false
              "channels_last") as (Hstage & Hnet & _).
  destruct (C9_inplanes BottleneckV1b_class false BatchNormalization false
              "channels_first") as (_ & _ & Hret).
  split; [|split; [|apply Hret; right; left; reflexivity]].
  - let r := eval vm_compute in
      (ResNetV1b._make_layer 2 BottleneckV1b_class 128 4 2 1 false
         BatchNormalization false "channels_last"
         {| inplanes := 256; norm_kwargs := ∅ |}) in
    match r with
    | (Ok ?stage, ?s') =>
        assert (Hrun :
          ResNetV1b._make_layer 2 BottleneckV1b_class 128 4 2 1 false
            BatchNormalization false "channels_last"
            {| inplanes := 256; norm_kwargs := ∅ |} = (Ok stage, s'))
          by (vm_compute; reflexivity);
        exists stage, s'; split; [exact Hrun|];
        exact (Hstage _ _ _ _ _ _ _ _ Hrun)
    end.
  - let r := eval vm_compute in
      (ResNetV1b.__init__ BottleneckV1b_class [3; 4; 6; 3] 1000
         "channels_last" false BatchNormalization ∅ false true 64 false 0%Q
         "resnetv1s_" ∅) in
    match r with
    | Ok ?net =>
        assert (Hinit :
          ResNetV1b.__init__ BottleneckV1b_class [3; 4; 6; 3] 1000
            "channels_last" false BatchNormalization ∅ false true 64 false 0%Q
            "resnetv1s_" ∅ = Ok net) by (vm_compute; reflexivity);
        exists net; split; [exact Hinit|];
        destruct (Hnet _ _ _ _ _ _ _ _ _ _ Hinit) as (_ & _ & H); exact H
    end.
Defined.

(** ** The basic block's forward computation *)

(** C7.  For every tensor type, [forward] helper and addition, and every
    input [x], the call of a basic block built from its constructor
    arguments is: 3x3 convolution at the block's stride and dilation,
    normalization, ReLU, 3x3 convolution at stride 1 and
    previous-dilation, normalization; the residual is [forward] of the
    downsample list on the input [x] when there is one and [x] otherwise;
    the sum of the two goes through a last ReLU.  The block owns two
    normalization layers and two activations, and on symbolic tensors the
    computation has two normalization steps and two activation steps. *)
Theorem C7_basic_block_forward {Tensor : Type} (forward : Tensor → Node → Tensor)
    (add : Tensor → Tensor → Tensor) planes strides dilation downsample
    previous_dilation norm_layer nk data_format kwargs (x : Tensor) :
  let self :=
    BasicBlockV1b.__init__ planes strides dilation downsample
      previous_dilation norm_layer nk data_format kwargs in
  let conv_a :=
    Conv2D {| filters := planes; kernel_size := 3; nn.strides := Some strides;
              padding := Some "same"; dilation_rate := Some dilation;
              use_bias := false; nn.data_format := data_format |} in
  let conv_b :=
    Conv2D {| filters := planes; kernel_size := 3; nn.strides := Some 1;
              padding := Some "same";
              dilation_rate := Some previous_dilation;
              use_bias := false; nn.data_format := data_format |} in
  let main :=
    forward
      (forward
         (forward
            (forward (forward x (Single conv_a))
               (Single (Norm norm_layer nk)))
            (Single (Activation "relu")))
         (Single conv_b))
      (Single (Norm norm_layer nk)) in
  let residual :=
    match downsample with
    | Some d => forward x (Sequence d)
    | None => x
    end in
  BasicBlockV1b.call forward add self x
  = forward (add main residual) (Single (Activation "relu"))
  ∧ length (List.filter is_norm (BasicBlockV1b.own_layers self)) = 2%nat
  ∧ length (List.filter is_activation (BasicBlockV1b.own_layers self)) = 2%nat
  ∧ count_steps is_norm (BasicBlockV1b.call SForward SAdd self SInput) = 2%nat
  ∧ count_steps is_activation (BasicBlockV1b.call SForward SAdd self SInput)
    = 2%nat.
Proof.
  cbv zeta. unfold BasicBlockV1b.call, BasicBlockV1b.__init__. cbn.
  split; [destruct downsample; reflexivity|].
  split; [reflexivity|]. split; [reflexivity|].
  destruct downsample; split; reflexivity.
Qed.

(** ** The last-gamma flag *)



(** ** The variant constructors *)

(** C8 (as the code has it).  The module has seventeen variant
    constructors, with distinct names: resnet 18, 34, 50, 101 and 152 in
    group b and resnet 50, 101 and 152 in each of the groups c, d, e and
    s.  Each one is the assembler called with the block class and counts
    of its depth and the keywords of its group (name prefix; deep stem
    for c, d, e, s; average-down for d, e; stem width 64 for e, s), the
    caller's dict unpacked after them.  A dict that rebinds none of the
    bound parameters reaches the assembler unchanged: every parameter the
    constructor leaves open takes the caller's value, or the default of
    the signature, and the unnamed keywords are handed on. *)
Theorem C8_variant_constructors :
  length variant_constructors = 17%nat
  ∧ variant_constructors = preset <$> published_variants
  ∧ NoDup (variant_constructors.*1)
  ∧ (∀ block layers fixed kwargs,
       no_rebinding fixed kwargs →
       ResNetV1b_call block layers fixed kwargs
       = ResNetV1b.__init__ block layers
           (default 1000 (kw_classes kwargs))
           (default "channels_last" (kw_data_format kwargs))
           (default false (kw_dilated kwargs))
           (default BatchNormalization (kw_norm_layer kwargs))
           (default ∅ (kw_norm_kwargs kwargs))
           (default false (kw_last_gamma kwargs))
           (default (default false (kw_deep_stem kwargs)) (fx_deep_stem fixed))
           (default (default 32 (kw_stem_width kwargs)) (fx_stem_width fixed))
           (default (default false (kw_avg_down kwargs)) (fx_avg_down fixed))
           (default 0%Q (kw_final_drop kwargs))
           (default (default "" (kw_name_prefix kwargs)) (fx_name_prefix fixed))
           (kw_other kwargs)).
Proof.
  split; [reflexivity|]. split; [reflexivity|]. split.
  - apply (bool_decide_unpack _). vm_compute. reflexivity.
  - intros block layers fixed kwargs (Hb & Hl & Hd & Ha & Hs & Hn).
    unfold ResNetV1b_call, twice. rewrite Hb, Hl. cbn [given orb].
    replace (given (fx_deep_stem fixed) && given (kw_deep_stem kwargs))
      with false by (destruct Hd as [-> | ->]; [|destruct (fx_deep_stem fixed)]; reflexivity).
    replace (given (fx_avg_down fixed) && given (kw_avg_down kwargs))
      with false by (destruct Ha as [-> | ->]; [|destruct (fx_avg_down fixed)]; reflexivity).
    replace (given (fx_stem_width fixed) && given (kw_stem_width kwargs))
      with false by (destruct Hs as [-> | ->]; [|destruct (fx_stem_width fixed)]; reflexivity).
    replace (given (fx_name_prefix fixed) && given (kw_name_prefix kwargs))
      with false by (destruct Hn as [-> | ->]; [|destruct (fx_name_prefix fixed)]; reflexivity).
    cbn [orb]. unfold pick.
    destruct (kw_classes kwargs), (kw_data_format kwargs), (kw_dilated kwargs),
      (kw_norm_layer kwargs), (kw_norm_kwargs kwargs), (kw_last_gamma kwargs),
      (kw_final_drop kwargs), (fx_deep_stem fixed), (fx_stem_width fixed),
      (fx_avg_down fixed), (fx_name_prefix fixed); reflexivity.
Qed.

(** C8 as stated fails on the count: the module has seventeen variant
    constructors, not twenty-one. *)
Lemma C8_not_twenty_one : length variant_constructors ≠ 21%nat.
Proof. cbn. discriminate. Qed.

Lemma C8_variant_constructors_witness :
  resnet50_v1d
    {| kw_block := None; kw_layers := None; kw_classes := Some 10;
       kw_data_format := None; kw_dilated := Some true; kw_norm_layer := None;
       kw_norm_kwargs := None; kw_last_gamma := None; kw_deep_stem := None;
       kw_stem_width := None; kw_avg_down := None; kw_final_drop := None;
       kw_name_prefix := None; kw_other := ∅ |}
  = ResNetV1b.__init__ BottleneckV1b_class [3; 4; 6; 3] 10 "channels_last"
      true BatchNormalization ∅ false true 32 true 0%Q "resnetv1d_" ∅.
Proof.
  destruct C8_variant_constructors as (_ & _ & _ & Hpass).
  unfold resnet50_v1d. rewrite Hpass; [reflexivity|].
  unfold no_rebinding; cbn. repeat split; auto.
Defined.

(** ** Shape of the stages *)

Lemma make_layer_first_downsample stage_index block planes blocks strides
    dilation avg_down norm_layer last_gamma data_format st stage st' :
  ResNetV1b._make_layer stage_index block planes blocks strides dilation
    avg_down norm_layer last_gamma data_format st = (Ok stage, st') →
  ∃ first rest,
    seq_items stage = first :: rest
    ∧ block_strides first = strides
    ∧ block_downsample first
      = ResNetV1b.make_downsample st stage_index block planes strides dilation
          avg_down norm_layer data_format.
Proof.
  intros Hrun.
  apply make_layer_inv in Hrun as (d & first & b & _ & Hfirst & _ & -> & _).
  apply block_call_downsample in Hfirst as (Hds & Hs & _).
  eexists _, _. split; [reflexivity|]. auto.
Qed.

Lemma block_call_filters block planes strides dilation downsample
    previous_dilation norm_layer nk last_gamma data_format b :
  block_call block planes strides dilation downsample previous_dilation
    norm_layer nk last_gamma data_format = Ok b →
  layer_filters (block_out_conv b) = Some (planes * expansion block)
  ∧ layer_filters (block_strided_conv b) = Some planes.
Proof.
  unfold block_call, BottleneckV1b.__init__, norm_call_zero_gamma, result_map.
  destruct block.
  - intros [= <-]. cbn. unfold BasicBlockV1b.expansion.
    by rewrite Z.mul_1_r.
  - destruct last_gamma; cbn; [|intros [= <-]; auto].
    destruct (nk !! "gamma_initializer"); cbn; [discriminate|].
    intros [= <-]; auto.
Qed.

Lemma make_downsample_path st stage_index block planes strides dilation
    avg_down norm_layer data_format d :
  ResNetV1b.make_downsample st stage_index block planes strides dilation
    avg_down norm_layer data_format = Some d →
  path_stride (seq_items d)
  = (if avg_down && negb (bool_decide (dilation = 1)) then 1 else strides)
  ∧ path_filters (seq_items d) = [planes * expansion block]
  ∧ (strides ≠ 1 ∨ inplanes st ≠ planes * expansion block).
Proof.
  unfold ResNetV1b.make_downsample.
  destruct (decide (strides ≠ 1 ∨ inplanes st ≠ planes * expansion block))
    as [Hneed | Hneed]; [|discriminate].
  intros [= <-]. split; [|split; [|exact Hneed]].
  - destruct avg_down; cbn.
    + destruct (decide (dilation = 1)) as [Hd | Hd].
      * rewrite bool_decide_eq_true_2 by exact Hd. cbn. lia.
      * rewrite bool_decide_eq_false_2 by exact Hd. cbn. reflexivity.
    + lia.
  - destruct avg_down; [|reflexivity].
    destruct (decide (dilation = 1)); reflexivity.
Qed.

Lemma make_downsample_is_Some st stage_index block planes strides dilation
    avg_down norm_layer data_format :
  is_Some (ResNetV1b.make_downsample st stage_index block planes strides
             dilation avg_down norm_layer data_format)
  ↔ strides ≠ 1 ∨ inplanes st ≠ planes * expansion block.
Proof.
  unfold ResNetV1b.make_downsample.
  destruct (decide (strides ≠ 1 ∨ inplanes st ≠ planes * expansion block))
    as [Hneed | Hneed].
  - split; [intros _; exact Hneed | intros _; eexists; reflexivity].
  - split; [intros [x Hx]; discriminate | intros H; contradiction].
Qed.

(** X1.  A stage the builder returns has one block for the first call
    and one per element of [range(1, blocks)]: [blocks] blocks when
    [blocks] is at least 1, and still one block when [blocks] is 0 or
    negative.  Its name is [layers<i>]. *)
Theorem stage_has_at_least_one_block stage_index block planes blocks strides
    dilation avg_down norm_layer last_gamma data_format st stage st' :
  ResNetV1b._make_layer stage_index block planes blocks strides dilation
    avg_down norm_layer last_gamma data_format st = (Ok stage, st') →
  length (seq_items stage) = stage_size blocks
  ∧ ((1 ≤ blocks)%Z → Z.of_nat (length (seq_items stage)) = blocks)
  ∧ ((blocks ≤ 1)%Z → length (seq_items stage) = 1%nat)
  ∧ seq_name stage = "layers" +:+ pretty stage_index.
Proof.
  intros Hrun.
  apply make_layer_inv in Hrun as (d & first & b & _ & _ & _ & -> & _).
  unfold stage_of, stage_size. cbn. rewrite length_replicate.
  split; [reflexivity|]. split; [lia|]. split; [lia | reflexivity].
Qed.

Lemma stage_has_at_least_one_block_witness :
  ∃ stage st',
    ResNetV1b._make_layer 1 BasicBlockV1b_class 64 0 1 1 false
      BatchNormalization false "channels_last"
      {| inplanes := 64; norm_kwargs := ∅ |} = (Ok stage, st')
    ∧ length (seq_items stage) = 1%nat.
Proof.
  let r := eval vm_compute in
    (ResNetV1b._make_layer 1 BasicBlockV1b_class 64 0 1 1 false
       BatchNormalization false "channels_last"
       {| inplanes := 64; norm_kwargs := ∅ |}) in
  match r with
  | (Ok ?stage, ?s') =>
      assert (Hrun :
        ResNetV1b._make_layer 1 BasicBlockV1b_class 64 0 1 1 false
          BatchNormalization false "channels_last"
          {| inplanes := 64; norm_kwargs := ∅ |} = (Ok stage, s'))
        by (vm_compute; reflexivity);
      exists stage, s'; split; [exact Hrun|];
      destruct (stage_has_at_least_one_block _ _ _ _ _ _ _ _ _ _ _ _ _ Hrun)
        as (_ & _ & Hone & _); apply Hone; lia
  end.
Defined.

(** X2.  In a stage the builder returns, the blocks after the first are
    all one and the same block, built with stride 1 and with the
    requested dilation as their own: for a requested dilation of 2 or 4
    they differ from the first block, whose own dilation is 1 or 2. *)
Theorem later_blocks_stride_1_requested_dilation stage_index block planes
    blocks strides dilation avg_down norm_layer last_gamma data_format st
    stage st' :
  ResNetV1b._make_layer stage_index block planes blocks strides dilation
    avg_down norm_layer last_gamma data_format st = (Ok stage, st') →
  ∃ first rest b,
    seq_items stage = first :: rest
    ∧ rest = replicate (Z.to_nat (blocks - 1)) b
    ∧ block_strides b = 1
    ∧ layer_strides (block_strided_conv b) = Some 1
    ∧ layer_dilation (block_strided_conv b) = Some dilation
    ∧ (dilation ≠ 1 →
       layer_dilation (block_strided_conv first)
       ≠ layer_dilation (block_strided_conv b)).
Proof.
  intros Hrun.
  apply make_layer_inv in Hrun as (d & first & b & Hd & Hfirst & Hb & -> & _).
  apply block_call_downsample in Hfirst as (_ & _ & Hfd & _).
  apply block_call_downsample in Hb as (_ & Hs & Hbd & Hbs).
  exists first, (replicate (Z.to_nat (blocks - 1)) b), b.
  split; [reflexivity|]. split; [reflexivity|].
  split; [exact Hs|]. split; [exact Hbs|]. split; [exact Hbd|].
  rewrite Hfd, Hbd. intros Hne [= Heq]. lia.
Qed.

Lemma later_blocks_stride_1_requested_dilation_witness :
  ∃ stage st' first b,
    ResNetV1b._make_layer 4 BottleneckV1b_class 512 3 1 4 false
      BatchNormalization false "channels_last"
      {| inplanes := 1024; norm_kwargs := ∅ |} = (Ok stage, st')
    ∧ seq_items stage = [first; b; b]
    ∧ layer_dilation (block_strided_conv b) = Some 4
    ∧ layer_dilation (block_strided_conv first)
      ≠ layer_dilation (block_strided_conv b).
Proof.
  let r := eval vm_compute in
    (ResNetV1b._make_layer 4 BottleneckV1b_class 512 3 1 4 false
       BatchNormalization false "channels_last"
       {| inplanes := 1024; norm_kwargs := ∅ |}) in
  match r with
  | (Ok ?stage, ?s') =>
      assert (Hrun :
        ResNetV1b._make_layer 4 BottleneckV1b_class 512 3 1 4 false
          BatchNormalization false "channels_last"
          {| inplanes := 1024; norm_kwargs := ∅ |} = (Ok stage, s'))
        by (vm_compute; reflexivity);
      destruct (later_blocks_stride_1_requested_dilation
                  _ _ _ _ _ _ _ _ _ _ _ _ _ Hrun)
        as (first & rest & b & Hitems & Hrest & _ & _ & Hdil & Hne);
      exists stage, s', first, b
  end.
  split; [exact Hrun|]. split; [by rewrite Hitems, Hrest|].
  split; [exact Hdil|]. apply Hne. discriminate.
Defined.

(** X3.  Channel bookkeeping of a stage the builder returns: the last
    convolution of every block has planes times expansion filters, the
    strided convolution has planes filters, and a downsample list on the
    first block holds exactly one convolution, with planes times
    expansion filters, so both operands of the residual addition have
    the same channel count. *)
Theorem stage_output_channels stage_index block planes blocks strides
    dilation avg_down norm_layer last_gamma data_format st stage st' :
  ResNetV1b._make_layer stage_index block planes blocks strides dilation
    avg_down norm_layer last_gamma data_format st = (Ok stage, st') →
  Forall
    (λ b, layer_filters (block_out_conv b) = Some (planes * expansion block)
          ∧ layer_filters (block_strided_conv b) = Some planes)
    (seq_items stage)
  ∧ ∃ first rest,
      seq_items stage = first :: rest
      ∧ ∀ d, block_downsample first = Some d →
             path_filters (seq_items d) = [planes * expansion block].
Proof.
  intros Hrun.
  destruct (make_layer_first_downsample _ _ _ _ _ _ _ _ _ _ _ _ _ Hrun)
    as (first' & rest' & Hitems & _ & Hds).
  apply make_layer_inv in Hrun as (d & first & b & _ & Hfirst & Hb & -> & _).
  split.
  - unfold stage_of, seq_items. constructor.
    + eapply block_call_filters. exact Hfirst.
    + apply Forall_replicate.
      eapply block_call_filters. exact Hb.
  - exists first', rest'. split; [exact Hitems|].
    intros ds Hsome. rewrite Hds in Hsome.
    apply make_downsample_path in Hsome. tauto.
Qed.

Lemma stage_output_channels_witness :
  ∃ stage st',
    ResNetV1b._make_layer 1 BottleneckV1b_class 64 3 1 1 true
      BatchNormalization false "channels_last"
      {| inplanes := 64; norm_kwargs := ∅ |} = (Ok stage, st')
    ∧ Forall (λ b, layer_filters (block_out_conv b) = Some 256)
        (seq_items stage).
Proof.
  let r := eval vm_compute in
    (ResNetV1b._make_layer 1 BottleneckV1b_class 64 3 1 1 true
       BatchNormalization false "channels_last"
       {| inplanes := 64; norm_kwargs := ∅ |}) in
  match r with
  | (Ok ?stage, ?s') =>
      assert (Hrun :
        ResNetV1b._make_layer 1 BottleneckV1b_class 64 3 1 1 true
          BatchNormalization false "channels_last"
          {| inplanes := 64; norm_kwargs := ∅ |} = (Ok stage, s'))
        by (vm_compute; reflexivity);
      exists stage, s'; split; [exact Hrun|];
      destruct (stage_output_channels _ _ _ _ _ _ _ _ _ _ _ _ _ Hrun)
        as (Hall & _);
      eapply Forall_impl; [|exact Hall]; intros b H; exact (proj1 H)
  end.
Defined.



(** ** Shape of the assembled network *)

(** The four stage builder calls behind an assembled network. *)
Lemma init_stage_runs block layers classes data_format dilated norm_layer nk
    last_gamma deep_stem stem_width avg_down final_drop name_prefix kwargs net :
  ResNetV1b.__init__ block layers classes data_format dilated norm_layer nk
    last_gamma deep_stem stem_width avg_down final_drop name_prefix kwargs
  = Ok net →
  let s1 := {| inplanes := if deep_stem then stem_width * 2 else 64;
              norm_kwargs := nk |} in
  ∃ n1 n2 n3 n4,
    layers !! 0%nat = Some n1 ∧ layers !! 1%nat = Some n2
    ∧ layers !! 2%nat = Some n3 ∧ layers !! 3%nat = Some n4
    ∧ ResNetV1b._make_layer 1 block 64 n1 1 1 avg_down norm_layer last_gamma
        data_format s1
      = (Ok (ResNetV1b.layer1 net), after_stage s1 block 64)
    ∧ ResNetV1b._make_layer 2 block 128 n2 2 1 avg_down norm_layer last_gamma
        data_format (after_stage s1 block 64)
      = (Ok (ResNetV1b.layer2 net), after_stage s1 block 128)
    ∧ ResNetV1b._make_layer 3 block 256 n3 (if dilated then 1 else 2)
        (if dilated then 2 else 1) avg_down norm_layer last_gamma
        data_format (after_stage s1 block 128)
      = (Ok (ResNetV1b.layer3 net), after_stage s1 block 256)
    ∧ ResNetV1b._make_layer 4 block 512 n4 (if dilated then 1 else 2)
        (if dilated then 4 else 1) avg_down norm_layer last_gamma
        data_format (after_stage s1 block 256)
      = (Ok (ResNetV1b.layer4 net), after_stage s1 block 512).
Proof.
  intros Hinit s1. apply init_inv in Hinit as (Hstages & _).
  apply make_stages_inv in Hstages
    as (n1 & n2 & n3 & n4 & Hn1 & Hn2 & Hn3 & Hn4 & H1 & H2 & H3 & H4 & _).
  exists n1, n2, n3, n4. auto 10.
Qed.

(** The attributes of an assembled network outside the stages. *)
Lemma init_fields block layers classes data_format dilated norm_layer nk
    last_gamma deep_stem stem_width avg_down final_drop name_prefix kwargs net :
  ResNetV1b.__init__ block layers classes data_format dilated norm_layer nk
    last_gamma deep_stem stem_width avg_down final_drop name_prefix kwargs
  = Ok net →
  ResNetV1b.name net = name_prefix
  ∧ ResNetV1b.data_format net = data_format
  ∧ ResNetV1b.conv1 net
    = ResNetV1b.make_stem deep_stem stem_width norm_layer nk data_format
  ∧ ResNetV1b.bn1 net = Norm norm_layer nk
  ∧ ResNetV1b.relu net = Activation "relu"
  ∧ ResNetV1b.maxpool net = MaxPool2D 3 2 "same" data_format
  ∧ ResNetV1b.avgpool net = GlobalAveragePooling2D data_format
  ∧ ResNetV1b.flat net = Flatten
  ∧ ResNetV1b.drop net
    = (if Qlt_le_dec 0 final_drop then Some (Dropout final_drop) else None)
  ∧ ResNetV1b.fc net = Dense classes.
Proof.
  unfold ResNetV1b.__init__.
  destruct (ResNetV1b.make_stages _ _ _ _ _ _ _ _)
    as [[[[[l1 l2] l3] l4] | e] s]; [|discriminate].
  intros [= <-]. cbn. auto 12.
Qed.

Lemma stage_first_paths_agree stage_index block planes blocks strides dilation
    avg_down norm_layer last_gamma data_format st stage st' :
  ResNetV1b._make_layer stage_index block planes blocks strides dilation
    avg_down norm_layer last_gamma data_format st = (Ok stage, st') →
  (avg_down = true → dilation ≠ 1 → strides = 1) →
  ∃ first rest,
    seq_items stage = first :: rest
    ∧ ∀ d, block_downsample first = Some d →
           path_stride (seq_items d) = block_strides first
           ∧ ∃ c, layer_filters (block_out_conv first) = Some c
                  ∧ path_filters (seq_items d) = [c].
Proof.
  intros Hrun Hside.
  destruct (make_layer_first_downsample _ _ _ _ _ _ _ _ _ _ _ _ _ Hrun)
    as (first' & rest' & Hitems & Hs & Hds).
  apply make_layer_inv in Hrun as (d0 & first & b & _ & Hfirst & _ & -> & _).
  cbn in Hitems. injection Hitems as <- <-.
  eexists _, _. split; [reflexivity|].
  intros d Hsome. rewrite Hds in Hsome.
  apply make_downsample_path in Hsome as (Hpath & Hfil & _).
  split.
  - rewrite Hpath, Hs. destruct avg_down; [|reflexivity].
    destruct (decide (dilation = 1)) as [Hd | Hd].
    + by rewrite bool_decide_eq_true_2.
    + rewrite bool_decide_eq_false_2 by exact Hd. cbn.
      symmetry. by apply Hside.
  - exists (planes * expansion block). split; [|exact Hfil].
    eapply block_call_filters. exact Hfirst.
Qed.

(** X5.  In every assembled network, in each of the four stages, a
    downsample list on the first block has the same stride as the block
    and as many filters as the block's last convolution: the two operands
    of the residual addition agree in spatial size and channels, in both
    modes and with or without average-down. *)
Theorem network_residual_paths_agree block layers classes data_format dilated
    norm_layer nk last_gamma deep_stem stem_width avg_down final_drop
    name_prefix kwargs net :
  ResNetV1b.__init__ block layers classes data_format dilated norm_layer nk
    last_gamma deep_stem stem_width avg_down final_drop name_prefix kwargs
  = Ok net →
  Forall
    (λ stage,
       ∃ first rest,
         seq_items stage = first :: rest
         ∧ ∀ d, block_downsample first = Some d →
                path_stride (seq_items d) = block_strides first
                ∧ ∃ c, layer_filters (block_out_conv first) = Some c
                       ∧ path_filters (seq_items d) = [c])
    (net_stages net).
Proof.
  intros Hinit.
  apply init_stage_runs in Hinit
    as (n1 & n2 & n3 & n4 & _ & _ & _ & _ & H1 & H2 & H3 & H4).
  unfold net_stages. repeat constructor.
  - eapply stage_first_paths_agree; [exact H1 | congruence].
  - eapply stage_first_paths_agree; [exact H2 | congruence].
  - eapply stage_first_paths_agree; [exact H3 |].
    destruct dilated; congruence.
  - eapply stage_first_paths_agree; [exact H4 |].
    destruct dilated; congruence.
Qed.

Lemma network_residual_paths_agree_witness :
  ∃ net,
    ResNetV1b.__init__ BottleneckV1b_class [3; 4; 6; 3] 1000 "channels_last"
      true BatchNormalization ∅ false true 32 true 0%Q "resnetv1d_" ∅
    = Ok net
    ∧ Forall
        (λ stage,
           ∃ first rest,
             seq_items stage = first :: rest
             ∧ ∀ d, block_downsample first = Some d →
                    path_stride (seq_items d) = block_strides first)
        (net_stages net).
Proof.
  let r := eval vm_compute in
    (ResNetV1b.__init__ BottleneckV1b_class [3; 4; 6; 3] 1000 "channels_last"
       true BatchNormalization ∅ false true 32 true 0%Q "resnetv1d_" ∅) in
  match r with
  | Ok ?net =>
      assert (Hinit :
        ResNetV1b.__init__ BottleneckV1b_class [3; 4; 6; 3] 1000
          "channels_last" true BatchNormalization ∅ false true 32 true 0%Q
          "resnetv1d_" ∅ = Ok net) by (vm_compute; reflexivity);
      exists net; split; [exact Hinit|];
      eapply Forall_impl;
        [|exact (network_residual_paths_agree _ _ _ _ _ _ _ _ _ _ _ _ _ _ _
                   Hinit)]
  end.
  intros stage (first & rest & Hitems & Hd).
  exists first, rest. split; [exact Hitems|].
  intros d Hsome. exact (proj1 (Hd d Hsome)).
Defined.

(** X6.  In every assembled network the first blocks of stages 2, 3 and
    4 carry a downsample list, in both modes; the first block of stage 1
    carries one exactly when the stem leaves a channel count other than
    64 times expansion: always for bottlenecks with the plain stem, and
    for basic blocks only under a deep stem whose width is not 32. *)
Theorem network_downsample_stages block layers classes data_format dilated
    norm_layer nk last_gamma deep_stem stem_width avg_down final_drop
    name_prefix kwargs net :
  ResNetV1b.__init__ block layers classes data_format dilated norm_layer nk
    last_gamma deep_stem stem_width avg_down final_drop name_prefix kwargs
  = Ok net →
  ∃ f1 f2 f3 f4,
    head (seq_items (ResNetV1b.layer1 net)) = Some f1
    ∧ head (seq_items (ResNetV1b.layer2 net)) = Some f2
    ∧ head (seq_items (ResNetV1b.layer3 net)) = Some f3
    ∧ head (seq_items (ResNetV1b.layer4 net)) = Some f4
    ∧ (is_Some (block_downsample f1)
       ↔ (if deep_stem then stem_width * 2 else 64) ≠ 64 * expansion block)
    ∧ (deep_stem = false →
       (is_Some (block_downsample f1) ↔ block = BottleneckV1b_class))
    ∧ is_Some (block_downsample f2)
    ∧ is_Some (block_downsample f3)
    ∧ is_Some (block_downsample f4).
Proof.
  intros Hinit.
  apply init_stage_runs in Hinit
    as (n1 & n2 & n3 & n4 & _ & _ & _ & _ & H1 & H2 & H3 & H4).
  apply make_layer_first_downsample in H1 as (f1 & r1 & E1 & _ & D1).
  apply make_layer_first_downsample in H2 as (f2 & r2 & E2 & _ & D2).
  apply make_layer_first_downsample in H3 as (f3 & r3 & E3 & _ & D3).
  apply make_layer_first_downsample in H4 as (f4 & r4 & E4 & _ & D4).
  exists f1, f2, f3, f4. rewrite E1, E2, E3, E4, D1, D2, D3, D4.
  rewrite !make_downsample_is_Some. unfold after_stage. cbn [inplanes head].
  do 4 (split; [reflexivity|]).
  split; [|split; [|split; [|split]]].
  - split; [intros [Hc | Hc]; [congruence | exact Hc] | auto].
  - intros ->.
    destruct block;
      unfold expansion, BasicBlockV1b.expansion, BottleneckV1b.expansion;
      split.
    + intros [Hc | Hc]; lia.
    + discriminate.
    + reflexivity.
    + intros _. right. lia.
  - left. discriminate.
  - destruct dilated; [right | left; discriminate].
    destruct block;
      unfold expansion, BasicBlockV1b.expansion, BottleneckV1b.expansion; lia.
  - destruct dilated; [right | left; discriminate].
    destruct block;
      unfold expansion, BasicBlockV1b.expansion, BottleneckV1b.expansion; lia.
Qed.

Lemma network_downsample_stages_witness :
  ∃ net f1 f2,
    ResNetV1b.__init__ BasicBlockV1b_class [2; 2; 2; 2] 1000 "channels_last"
      false BatchNormalization ∅ false false 32 false 0%Q "resnetv1b" ∅
    = Ok net
    ∧ head (seq_items (ResNetV1b.layer1 net)) = Some f1
    ∧ head (seq_items (ResNetV1b.layer2 net)) = Some f2
    ∧ block_downsample f1 = None
    ∧ is_Some (block_downsample f2).
Proof.
  let r := eval vm_compute in
    (ResNetV1b.__init__ BasicBlockV1b_class [2; 2; 2; 2] 1000 "channels_last"
       false BatchNormalization ∅ false false 32 false 0%Q "resnetv1b" ∅) in
  match r with
  | Ok ?net =>
      assert (Hinit :
        ResNetV1b.__init__ BasicBlockV1b_class [2; 2; 2; 2] 1000
          "channels_last" false BatchNormalization ∅ false false 32 false 0%Q
          "resnetv1b" ∅ = Ok net) by (vm_compute; reflexivity);
      destruct (network_downsample_stages _ _ _ _ _ _ _ _ _ _ _ _ _ _ _ Hinit)
        as (f1 & f2 & f3 & f4 & E1 & E2 & _ & _ & _ & Hb & D2 & _);
      exists net, f1, f2
  end.
  split; [exact Hinit|]. split; [exact E1|]. split; [exact E2|].
  split; [|exact D2].
  destruct (block_downsample f1) eqn:E; [|reflexivity].
  assert (Hs : is_Some (block_downsample f1)) by (rewrite E; eauto).
  rewrite E in Hs. apply (Hb eq_refl) in Hs. discriminate.
Defined.

Lemma stage_stride_replicate (k : nat) (b : Block) :
  block_strides b = 1 →
  foldr (λ b acc, block_strides b * acc) 1 (replicate k b) = 1.
Proof.
  intros Hb. induction k as [|k IH]; [reflexivity|].
  cbn. rewrite Hb, IH. reflexivity.
Qed.

Lemma stage_stride_eq stage_index block planes blocks strides dilation
    avg_down norm_layer last_gamma data_format st stage st' :
  ResNetV1b._make_layer stage_index block planes blocks strides dilation
    avg_down norm_layer last_gamma data_format st = (Ok stage, st') →
  stage_stride stage = strides.
Proof.
  intros Hrun.
  apply make_layer_inv in Hrun as (d & first & b & _ & Hfirst & Hb & -> & _).
  apply block_call_downsample in Hfirst as (_ & Hs & _).
  apply block_call_downsample in Hb as (_ & Hb & _).
  unfold stage_stride, stage_of. cbn.
  rewrite (stage_stride_replicate _ _ Hb), Hs. lia.
Qed.

(** X7.  The stride of an assembled network, from the input to the last
    feature map (stem, max pool and the blocks of the four stages), is 8
    in dilated mode and 32 otherwise, whatever the block class, counts
    and stem. *)
Theorem network_stride_8_or_32 block layers classes data_format dilated
    norm_layer nk last_gamma deep_stem stem_width avg_down final_drop
    name_prefix kwargs net :
  ResNetV1b.__init__ block layers classes data_format dilated norm_layer nk
    last_gamma deep_stem stem_width avg_down final_drop name_prefix kwargs
  = Ok net →
  network_stride net = (if dilated then 8 else 32).
Proof.
  intros Hinit.
  pose proof (init_fields _ _ _ _ _ _ _ _ _ _ _ _ _ _ _ Hinit)
    as (_ & _ & Hstem & _ & _ & Hpool & _).
  apply init_stage_runs in Hinit
    as (n1 & n2 & n3 & n4 & _ & _ & _ & _ & H1 & H2 & H3 & H4).
  apply stage_stride_eq in H1, H2, H3, H4.
  unfold network_stride, net_stages. cbn [foldr].
  rewrite Hstem, Hpool, H1, H2, H3, H4.
  assert (Hs : path_stride
                 (node_layers
                    (ResNetV1b.make_stem deep_stem stem_width norm_layer nk
                       data_format)) = 2)
    by (destruct deep_stem; reflexivity).
  rewrite Hs. destruct dilated; reflexivity.
Qed.

Lemma network_stride_8_or_32_witness :
  ∃ net,
    ResNetV1b.__init__ BottleneckV1b_class [3; 4; 23; 3] 1000 "channels_last"
      true BatchNormalization ∅ false true 64 false 0%Q "resnetv1s_" ∅
    = Ok net
    ∧ network_stride net = 8.
Proof.
  let r := eval vm_compute in
    (ResNetV1b.__init__ BottleneckV1b_class [3; 4; 23; 3] 1000 "channels_last"
       true BatchNormalization ∅ false true 64 false 0%Q "resnetv1s_" ∅) in
  match r with
  | Ok ?net =>
      assert (Hinit :
        ResNetV1b.__init__ BottleneckV1b_class [3; 4; 23; 3] 1000
          "channels_last" true BatchNormalization ∅ false true 64 false 0%Q
          "resnetv1s_" ∅ = Ok net) by (vm_compute; reflexivity);
      exists net; split; [exact Hinit|];
      exact (network_stride_8_or_32 _ _ _ _ _ _ _ _ _ _ _ _ _ _ _ Hinit)
  end.
Defined.

(** ** Every block and every layer of the network *)

Lemma stage_blocks_built stage_index block planes blocks strides dilation
    avg_down norm_layer last_gamma data_format st stage st' :
  ResNetV1b._make_layer stage_index block planes blocks strides dilation
    avg_down norm_layer last_gamma data_format st = (Ok stage, st') →
  Forall (built_by block planes norm_layer (norm_kwargs st) last_gamma
            data_format) (seq_items stage).
Proof.
  intros Hrun.
  apply make_layer_inv in Hrun as (d & first & b & _ & Hfirst & Hb & -> & _).
  unfold stage_of, seq_items. constructor.
  - eexists _, _, _, _. split; [exact Hfirst|]. right.
    exists (inplanes st), stage_index, strides, dilation, avg_down.
    by destruct st.
  - apply Forall_replicate. eexists _, _, _, _. split; [exact Hb | by left].
Qed.

Lemma net_blocks_built block layers classes data_format dilated norm_layer nk
    last_gamma deep_stem stem_width avg_down final_drop name_prefix kwargs net :
  ResNetV1b.__init__ block layers classes data_format dilated norm_layer nk
    last_gamma deep_stem stem_width avg_down final_drop name_prefix kwargs
  = Ok net →
  Forall (λ b, ∃ planes, built_by block planes norm_layer nk last_gamma
                           data_format b)
    (net_blocks net).
Proof.
  intros Hinit.
  apply init_stage_runs in Hinit
    as (n1 & n2 & n3 & n4 & _ & _ & _ & _ & H1 & H2 & H3 & H4).
  apply stage_blocks_built in H1, H2, H3, H4.
  unfold net_blocks, net_stages. cbn [fmap list_fmap concat].
  rewrite !Forall_app. repeat split.
  - eapply Forall_impl; [|exact H1]. intros b Hb. by exists 64.
  - eapply Forall_impl; [|exact H2]. intros b Hb. by exists 128.
  - eapply Forall_impl; [|exact H3]. intros b Hb. by exists 256.
  - eapply Forall_impl; [|exact H4]. intros b Hb. by exists 512.
  - constructor.
Qed.

Lemma built_by_bottleneck_last_gamma planes norm_layer nk data_format b :
  built_by BottleneckV1b_class planes norm_layer nk true data_format b →
  nk !! "gamma_initializer" = None
  ∧ ∃ bb,
      b = Bottleneck bb
      ∧ BottleneckV1b.bn1 bb = Norm norm_layer nk
      ∧ BottleneckV1b.bn2 bb = Norm norm_layer nk
      ∧ BottleneckV1b.bn3 bb
        = Norm norm_layer (<["gamma_initializer" := PyStr "zeros"]> nk).
Proof.
  intros (s & d & ds & pd & Hcall & _).
  unfold block_call, BottleneckV1b.__init__, norm_call_zero_gamma, result_map
    in Hcall. cbn in Hcall.
  destruct (nk !! "gamma_initializer") eqn:E; cbn in Hcall; [discriminate|].
  injection Hcall as <-. split; [reflexivity|]. eexists. split; [reflexivity|].
  cbn. auto.
Qed.

(** X8.  In every assembled bottleneck network built with [last_gamma],
    each block of each stage is a bottleneck whose third normalization
    layer has the zero gamma initializer and whose first two have not;
    the stem normalization has not either. *)
Theorem network_last_gamma_every_bottleneck layers classes data_format dilated
    norm_layer nk deep_stem stem_width avg_down final_drop name_prefix kwargs
    net :
  ResNetV1b.__init__ BottleneckV1b_class layers classes data_format dilated
    norm_layer nk true deep_stem stem_width avg_down final_drop name_prefix
    kwargs = Ok net →
  Forall
    (λ b, ∃ bb, b = Bottleneck bb
                ∧ has_zero_gamma (BottleneckV1b.bn3 bb)
                ∧ ¬ has_zero_gamma (BottleneckV1b.bn1 bb)
                ∧ ¬ has_zero_gamma (BottleneckV1b.bn2 bb))
    (net_blocks net)
  ∧ net_blocks net ≠ []
  ∧ ¬ has_zero_gamma (ResNetV1b.bn1 net).
Proof.
  intros Hinit.
  pose proof (init_fields _ _ _ _ _ _ _ _ _ _ _ _ _ _ _ Hinit)
    as (_ & _ & _ & Hbn1 & _).
  pose proof (net_blocks_built _ _ _ _ _ _ _ _ _ _ _ _ _ _ _ Hinit) as Hall.
  assert (Hne : net_blocks net ≠ []).
  { apply init_stage_runs in Hinit
      as (n1 & _ & _ & _ & _ & _ & _ & _ & H1 & _).
    apply make_layer_inv in H1 as (? & ? & ? & _ & _ & _ & E & _).
    unfold net_blocks, net_stages. cbn [fmap list_fmap concat].
    rewrite E. discriminate. }
  split; [|split; [exact Hne|]].
  - eapply Forall_impl; [|exact Hall]. intros b (planes & Hb).
    apply built_by_bottleneck_last_gamma in Hb
      as (Hnk & bb & -> & E1 & E2 & E3).
    exists bb. split; [reflexivity|]. rewrite E1, E2, E3. cbn.
    rewrite lookup_insert_eq, Hnk. split; [reflexivity|].
    split; discriminate.
  - destruct (net_blocks net) as [|b bs] eqn:E; [contradiction|].
    apply List.Forall_inv in Hall as (planes & Hb).
    apply built_by_bottleneck_last_gamma in Hb as (Hnk & _).
    rewrite Hbn1. cbn. rewrite Hnk. discriminate.
Qed.

Lemma network_last_gamma_every_bottleneck_witness :
  ∃ net,
    ResNetV1b.__init__ BottleneckV1b_class [3; 4; 6; 3] 1000 "channels_last"
      false BatchNormalization ∅ true false 32 false 0%Q "resnetv1b" ∅
    = Ok net
    ∧ Forall
        (λ b, ∃ bb, b = Bottleneck bb
                    ∧ has_zero_gamma (BottleneckV1b.bn3 bb))
        (net_blocks net)
    ∧ length (net_blocks net) = 16%nat.
Proof.
  let r := eval vm_compute in
    (ResNetV1b.__init__ BottleneckV1b_class [3; 4; 6; 3] 1000 "channels_last"
       false BatchNormalization ∅ true false 32 false 0%Q "resnetv1b" ∅) in
  match r with
  | Ok ?net =>
      assert (Hinit :
        ResNetV1b.__init__ BottleneckV1b_class [3; 4; 6; 3] 1000
          "channels_last" false BatchNormalization ∅ true false 32 false 0%Q
          "resnetv1b" ∅ = Ok net) by (vm_compute; reflexivity);
      exists net; split; [exact Hinit|]; split; [|reflexivity];
      eapply Forall_impl;
        [|exact (proj1 (network_last_gamma_every_bottleneck
                          _ _ _ _ _ _ _ _ _ _ _ _ _ Hinit))]
  end.
  intros b (bb & Hb & Hz & _). exists bb. auto.
Defined.

(** Closes [Forall (layer_conforms ..)] on an explicit list of layers. *)
Ltac conform_list :=
  cbn; repeat (apply List.Forall_cons; [cbn; auto|]); try apply List.Forall_nil.

Lemma make_downsample_conforms inpl nk stage_index block planes strides
    dilation avg_down norm_layer data_format d :
  ResNetV1b.make_downsample {| inplanes := inpl; norm_kwargs := nk |}
    stage_index block planes strides dilation avg_down norm_layer data_format
  = Some d →
  Forall (layer_conforms norm_layer nk data_format) (seq_items d).
Proof.
  unfold ResNetV1b.make_downsample. destruct (decide _); [|discriminate].
  intros [= <-]. cbn.
  destruct avg_down; [destruct (decide (dilation = 1))|];
    conform_list.
Qed.

Lemma built_by_conforms block planes norm_layer nk last_gamma data_format b :
  built_by block planes norm_layer nk last_gamma data_format b →
  Forall (layer_conforms norm_layer nk data_format) (block_layers b)
  ∧ length (List.filter is_conv (block_own_layers b)) = convs_per_block block.
Proof.
  intros (s & d & ds & pd & Hcall & Hds).
  assert (Hdown : Forall (layer_conforms norm_layer nk data_format)
                    match ds with Some d => seq_items d | None => [] end).
  { destruct Hds as [-> | (inpl & i & s' & d' & avg & ->)]; [constructor|].
    destruct (ResNetV1b.make_downsample _ _ _ _ _ _ _ _ _) eqn:E;
      [|constructor].
    eapply make_downsample_conforms. exact E. }
  pose proof (block_call_downsample _ _ _ _ _ _ _ _ _ _ _ Hcall) as (Hb & _).
  unfold block_layers. rewrite Hb, Forall_app.
  unfold block_call, BottleneckV1b.__init__, norm_call_zero_gamma, result_map
    in Hcall.
  destruct block.
  - injection Hcall as <-. split; [|reflexivity].
    split; [|exact Hdown]. cbn. conform_list.
  - destruct last_gamma; cbn in Hcall.
    + destruct (nk !! "gamma_initializer"); cbn in Hcall; [discriminate|].
      injection Hcall as <-. split; [|reflexivity].
      split; [|exact Hdown]. cbn. conform_list.
    + injection Hcall as <-. split; [|reflexivity].
      split; [|exact Hdown]. cbn. conform_list.
Qed.

(** X9.  Every layer object of an assembled network follows the
    arguments of the assembler: each convolution is built without bias
    and in the network's layout, each pooling layer in that layout (max
    and average pools with "same" padding), each normalization layer by
    [norm_layer] with [norm_kwargs] (plus the zero gamma initializer at
    most), and each activation is a ReLU. *)
Theorem network_layers_conform block layers classes data_format dilated
    norm_layer nk last_gamma deep_stem stem_width avg_down final_drop
    name_prefix kwargs net :
  ResNetV1b.__init__ block layers classes data_format dilated norm_layer nk
    last_gamma deep_stem stem_width avg_down final_drop name_prefix kwargs
  = Ok net →
  Forall (layer_conforms norm_layer nk data_format) (net_layers net).
Proof.
  intros Hinit.
  pose proof (init_fields _ _ _ _ _ _ _ _ _ _ _ _ _ _ _ Hinit)
    as (_ & _ & Hstem & Hbn1 & Hrelu & Hpool & Havg & Hflat & Hdrop & Hfc).
  pose proof (net_blocks_built _ _ _ _ _ _ _ _ _ _ _ _ _ _ _ Hinit) as Hall.
  unfold net_layers.
  rewrite Hstem, Hbn1, Hrelu, Hpool, Havg, Hflat, Hdrop, Hfc.
  rewrite !Forall_app. repeat split.
  - unfold ResNetV1b.make_stem. destruct deep_stem; cbn;
      conform_list.
  - conform_list.
  - apply List.Forall_concat, Forall_fmap.
    eapply Forall_impl; [|exact Hall]. intros b (planes & Hb).
    exact (proj1 (built_by_conforms _ _ _ _ _ _ _ Hb)).
  - conform_list.
  - destruct (Qlt_le_dec 0 final_drop); conform_list.
  - conform_list.
Qed.

Lemma network_layers_conform_witness :
  ∃ net,
    ResNetV1b.__init__ BottleneckV1b_class [3; 4; 6; 3] 1000 "channels_first"
      true BatchNormalization ∅ true true 32 true (1 # 2)%Q "resnetv1d_" ∅
    = Ok net
    ∧ Forall (layer_conforms BatchNormalization ∅ "channels_first")
        (net_layers net).
Proof.
  let r := eval vm_compute in
    (ResNetV1b.__init__ BottleneckV1b_class [3; 4; 6; 3] 1000 "channels_first"
       true BatchNormalization ∅ true true 32 true (1 # 2)%Q "resnetv1d_" ∅) in
  match r with
  | Ok ?net =>
      assert (Hinit :
        ResNetV1b.__init__ BottleneckV1b_class [3; 4; 6; 3] 1000
          "channels_first" true BatchNormalization ∅ true true 32 true
          (1 # 2)%Q "resnetv1d_" ∅ = Ok net) by (vm_compute; reflexivity);
      exists net; split; [exact Hinit|];
      exact (network_layers_conform _ _ _ _ _ _ _ _ _ _ _ _ _ _ _ Hinit)
  end.
Defined.

(** Blocks and weighted layers of an assembled network, from the counts. *)
Lemma weighted_layers_formula block layers classes data_format dilated
    norm_layer nk last_gamma deep_stem stem_width avg_down final_drop
    name_prefix kwargs net :
  ResNetV1b.__init__ block layers classes data_format dilated norm_layer nk
    last_gamma deep_stem stem_width avg_down final_drop name_prefix kwargs
  = Ok net →
  ∃ n1 n2 n3 n4,
    layers !! 0%nat = Some n1 ∧ layers !! 1%nat = Some n2
    ∧ layers !! 2%nat = Some n3 ∧ layers !! 3%nat = Some n4
    ∧ length (net_blocks net)
      = (stage_size n1 + stage_size n2 + stage_size n3 + stage_size n4)%nat
    ∧ weighted_layers net
      = ((if deep_stem then 3 else 1)
         + (stage_size n1 + stage_size n2 + stage_size n3 + stage_size n4)
           * convs_per_block block
         + 1)%nat.
Proof.
  intros Hinit.
  pose proof (init_fields _ _ _ _ _ _ _ _ _ _ _ _ _ _ _ Hinit)
    as (_ & _ & Hstem & _).
  pose proof (net_blocks_built _ _ _ _ _ _ _ _ _ _ _ _ _ _ _ Hinit) as Hall.
  apply init_stage_runs in Hinit
    as (n1 & n2 & n3 & n4 & Hn1 & Hn2 & Hn3 & Hn4 & H1 & H2 & H3 & H4).
  exists n1, n2, n3, n4. do 4 (split; [assumption|]).
  assert (Hlen : length (net_blocks net)
                 = (stage_size n1 + stage_size n2 + stage_size n3
                    + stage_size n4)%nat).
  { apply make_layer_inv in H1 as (? & ? & ? & _ & _ & _ & E1 & _).
    apply make_layer_inv in H2 as (? & ? & ? & _ & _ & _ & E2 & _).
    apply make_layer_inv in H3 as (? & ? & ? & _ & _ & _ & E3 & _).
    apply make_layer_inv in H4 as (? & ? & ? & _ & _ & _ & E4 & _).
    unfold net_blocks, net_stages. cbn [fmap list_fmap concat].
    rewrite E1, E2, E3, E4. unfold stage_of, stage_size. cbn [seq_items].
    rewrite !List.length_app. cbn [length]. rewrite !length_replicate. lia. }
  split; [exact Hlen|].
  unfold weighted_layers, main_convs.
  rewrite (sum_list_fmap_same (convs_per_block block)).
  - rewrite Hlen, Hstem. destruct deep_stem; reflexivity.
  - eapply Forall_impl; [|exact Hall]. intros b (planes & Hb).
    exact (proj2 (built_by_conforms _ _ _ _ _ _ _ Hb)).
Qed.

(** ** Outcomes of the assembler *)









(** X11.  The assembler reads the first four counts only: entries of the
    count list after the fourth change nothing. *)
Theorem assembler_ignores_counts_after_fourth block n1 n2 n3 n4 more classes
    data_format dilated norm_layer nk last_gamma deep_stem stem_width avg_down
    final_drop name_prefix kwargs :
  ResNetV1b.__init__ block (n1 :: n2 :: n3 :: n4 :: more) classes data_format
    dilated norm_layer nk last_gamma deep_stem stem_width avg_down final_drop
    name_prefix kwargs
  = ResNetV1b.__init__ block [n1; n2; n3; n4] classes data_format dilated
      norm_layer nk last_gamma deep_stem stem_width avg_down final_drop
      name_prefix kwargs.
Proof. reflexivity. Qed.

(** ** Forward computations *)

(** X12.  For every tensor type, [forward] helper and addition, the call
    of a bottleneck block the constructor returns is: 1x1 convolution,
    normalization, ReLU, 3x3 convolution at the block's stride and
    dilation, normalization, ReLU, 1x1 convolution with four times
    [planes] filters, third normalization (with the zero gamma
    initializer under [last_gamma]); the residual, [forward] of the
    downsample list on the input or the input itself, is added and a
    last ReLU applied: three normalization and three activation steps.
    [previous_dilation] has no part in it: any other value gives the
    same block. *)
Theorem bottleneck_forward {Tensor : Type} (forward : Tensor → Node → Tensor)
    (add : Tensor → Tensor → Tensor) planes strides dilation downsample
    previous_dilation norm_layer nk last_gamma data_format kwargs self
    (x : Tensor) :
  BottleneckV1b.__init__ planes strides dilation downsample previous_dilation
    norm_layer nk last_gamma data_format kwargs = Ok self →
  let conv_a :=
    Conv2D {| filters := planes; kernel_size := 1; nn.strides := None;
              padding := None; dilation_rate := None;
              use_bias := false; nn.data_format := data_format |} in
  let conv_b :=
    Conv2D {| filters := planes; kernel_size := 3; nn.strides := Some strides;
              padding := Some "same"; dilation_rate := Some dilation;
              use_bias := false; nn.data_format := data_format |} in
  let conv_c :=
    Conv2D {| filters := planes * 4; kernel_size := 1; nn.strides := None;
              padding := None; dilation_rate := None;
              use_bias := false; nn.data_format := data_format |} in
  let norm := Single (Norm norm_layer nk) in
  let norm_c :=
    Single (Norm norm_layer
              (if last_gamma
               then <["gamma_initializer" := PyStr "zeros"]> nk else nk)) in
  let relu := Single (Activation "relu") in
  let main :=
    forward
      (forward
         (forward
            (forward
               (forward
                  (forward (forward (forward x (Single conv_a)) norm) relu)
                  (Single conv_b))
               norm)
            relu)
         (Single conv_c))
      norm_c in
  let residual :=
    match downsample with
    | Some d => forward x (Sequence d)
    | None => x
    end in
  BottleneckV1b.call forward add self x = forward (add main residual) relu
  ∧ count_steps is_norm (BottleneckV1b.call SForward SAdd self SInput) = 3%nat
  ∧ count_steps is_activation (BottleneckV1b.call SForward SAdd self SInput)
    = 3%nat
  ∧ ∀ previous_dilation' kwargs',
      BottleneckV1b.__init__ planes strides dilation downsample
        previous_dilation' norm_layer nk last_gamma data_format kwargs'
      = Ok self.
Proof.
  cbv zeta. unfold BottleneckV1b.__init__, norm_call_zero_gamma.
  destruct last_gamma; cbn.
  - destruct (nk !! "gamma_initializer"); cbn; [discriminate|].
    intros [= <-]. unfold BottleneckV1b.call. cbn.
    split; [destruct downsample; reflexivity|].
    destruct downsample; auto.
  - intros [= <-]. unfold BottleneckV1b.call. cbn.
    split; [destruct downsample; reflexivity|].
    destruct downsample; auto.
Qed.

Lemma bottleneck_forward_witness :
  ∃ self,
    BottleneckV1b.__init__ 64 2 1 None 1 BatchNormalization ∅ true
      "channels_last" ∅ = Ok self
    ∧ count_steps is_norm (BottleneckV1b.call SForward SAdd self SInput)
      = 3%nat
    ∧ BottleneckV1b.__init__ 64 2 1 None 7 BatchNormalization ∅ true
        "channels_last" ∅ = Ok self.
Proof.
  let r := eval vm_compute in
    (BottleneckV1b.__init__ 64 2 1 None 1 BatchNormalization ∅ true
       "channels_last" ∅) in
  match r with
  | Ok ?self =>
      assert (Hinit :
        BottleneckV1b.__init__ 64 2 1 None 1 BatchNormalization ∅ true
          "channels_last" ∅ = Ok self) by (vm_compute; reflexivity);
      destruct (bottleneck_forward SForward SAdd 64 2 1 None 1
                  BatchNormalization ∅ true "channels_last" ∅ self SInput
                  Hinit) as (_ & Hn & _ & Hpd);
      exists self
  end.
  split; [exact Hinit|]. split; [exact Hn | exact (Hpd 7 ∅)].
Defined.

(** X13.  For every tensor type, [forward] helper and transposition, the
    call of an assembled network transposes the input by [0, 3, 1, 2]
    exactly when the layout is "channels_first", then applies the stem,
    the normalization, the ReLU, the 3x3 stride-2 max pool, stages 1 to
    4, the global average pool and the flatten, a dropout step exactly
    when [final_drop] is positive, and last the dense layer with
    [classes] units. *)
Theorem network_forward {Tensor : Type}
    (forward : Tensor → Applicable → Tensor)
    (transpose : Tensor → list Z → Tensor) block layers classes data_format
    dilated norm_layer nk last_gamma deep_stem stem_width avg_down final_drop
    name_prefix kwargs net (x : Tensor) :
  ResNetV1b.__init__ block layers classes data_format dilated norm_layer nk
    last_gamma deep_stem stem_width avg_down final_drop name_prefix kwargs
  = Ok net →
  let x0 :=
    if decide (data_format = "channels_first")
    then transpose x [0; 3; 1; 2] else x in
  let stem :=
    forward
      (forward
         (forward
            (forward x0
               (OfNode (ResNetV1b.make_stem deep_stem stem_width norm_layer
                          nk data_format)))
            (OfNode (Single (Norm norm_layer nk))))
         (OfNode (Single (Activation "relu"))))
      (OfNode (Single (MaxPool2D 3 2 "same" data_format))) in
  let stages :=
    forward
      (forward
         (forward (forward stem (OfStage (ResNetV1b.layer1 net)))
            (OfStage (ResNetV1b.layer2 net)))
         (OfStage (ResNetV1b.layer3 net)))
      (OfStage (ResNetV1b.layer4 net)) in
  let pooled :=
    forward
      (forward stages (OfNode (Single (GlobalAveragePooling2D data_format))))
      (OfNode (Single Flatten)) in
  ((0 < final_drop)%Q →
   ResNetV1bForward.call forward transpose net x
   = forward (forward pooled (OfNode (Single (Dropout final_drop))))
       (OfNode (Single (Dense classes))))
  ∧ ((final_drop <= 0)%Q →
     ResNetV1bForward.call forward transpose net x
     = forward pooled (OfNode (Single (Dense classes)))).
Proof.
  intros Hinit. cbv zeta.
  apply init_fields in Hinit
    as (_ & Hdf & Hstem & Hbn1 & Hrelu & Hpool & Havg & Hflat & Hdrop & Hfc).
  unfold ResNetV1bForward.call.
  rewrite Hdf, Hstem, Hbn1, Hrelu, Hpool, Havg, Hflat, Hdrop, Hfc.
  destruct (Qlt_le_dec 0 final_drop) as [Hpos | Hle]; split; intros H.
  - reflexivity.
  - exfalso. exact (Qlt_not_le _ _ Hpos H).
  - exfalso. exact (Qle_not_lt _ _ Hle H).
  - reflexivity.
Qed.

Lemma network_forward_witness :
  ∃ net,
    ResNetV1b.__init__ BasicBlockV1b_class [2; 2; 2; 2] 10 "channels_first"
      false BatchNormalization ∅ false false 32 false (1 # 5)%Q "resnetv1b" ∅
    = Ok net
    ∧ ResNetV1bForward.call (λ t a, a :: t) (λ t _, t) net []
      = [ OfNode (Single (Dense 10));
          OfNode (Single (Dropout (1 # 5)));
          OfNode (Single Flatten);
          OfNode (Single (GlobalAveragePooling2D "channels_first"));
          OfStage (ResNetV1b.layer4 net); OfStage (ResNetV1b.layer3 net);
          OfStage (ResNetV1b.layer2 net); OfStage (ResNetV1b.layer1 net);
          OfNode (Single (MaxPool2D 3 2 "same" "channels_first"));
          OfNode (Single (Activation "relu"));
          OfNode (Single (Norm BatchNormalization ∅));
          OfNode (ResNetV1b.make_stem false 32 BatchNormalization ∅
                    "channels_first") ].
Proof.
  let r := eval vm_compute in
    (ResNetV1b.__init__ BasicBlockV1b_class [2; 2; 2; 2] 10 "channels_first"
       false BatchNormalization ∅ false false 32 false (1 # 5)%Q
       "resnetv1b" ∅) in
  match r with
  | Ok ?net =>
      assert (Hinit :
        ResNetV1b.__init__ BasicBlockV1b_class [2; 2; 2; 2] 10
          "channels_first" false BatchNormalization ∅ false false 32 false
          (1 # 5)%Q "resnetv1b" ∅ = Ok net) by (vm_compute; reflexivity);
      exists net; split; [exact Hinit|];
      destruct (network_forward (λ t a, a :: t) (λ t _, t)
                  _ _ _ _ _ _ _ _ _ _ _ _ _ _ _ [] Hinit) as [Hpos _];
      rewrite Hpos by reflexivity
  end.
  reflexivity.
Defined.

(** ** The variant constructors as presets *)

Lemma variants_are_presets : variant_constructors = preset <$> published_variants.
Proof. reflexivity. Qed.

Lemma over_all_variants
    (P : string * (Kwargs → result ResNetV1b.t) → Depth * Group → Prop) :
  (∀ v, P (preset v) v) → Forall2 P variant_constructors published_variants.
Proof.
  intros H. rewrite variants_are_presets. apply Forall2_fmap_l.
  apply Forall_Forall2_diag, Forall_true. intros v. apply H.
Qed.

Lemma rebinding_raises block layers fixed kwargs :
  ¬ no_rebinding fixed kwargs →
  ResNetV1b_call block layers fixed kwargs = Raise TypeError.
Proof.
  intros Hno. unfold ResNetV1b_call, twice.
  destruct (kw_block kwargs) eqn:E1; [reflexivity|].
  destruct (kw_layers kwargs) eqn:E2; [reflexivity|].
  destruct (fx_deep_stem fixed) eqn:E3, (kw_deep_stem kwargs) eqn:E4;
    try reflexivity;
    (destruct (fx_avg_down fixed) eqn:E5, (kw_avg_down kwargs) eqn:E6;
       try reflexivity;
       (destruct (fx_stem_width fixed) eqn:E7, (kw_stem_width kwargs) eqn:E8;
          try reflexivity;
          (destruct (fx_name_prefix fixed) eqn:E9,
                    (kw_name_prefix kwargs) eqn:E10;
             try reflexivity;
             exfalso; apply Hno; unfold no_rebinding;
             rewrite ?E1, ?E2, ?E3, ?E4, ?E5, ?E6, ?E7, ?E8, ?E9, ?E10;
             auto 10))).
Qed.



(** X14.  Every variant constructor raises TypeError when the caller's
    keywords name a parameter its own call already binds: [block],
    [layers] and [name_prefix] for all seventeen, and the keywords of
    the group besides ([deep_stem] for c, d, e and s, [avg_down] for d
    and e, [stem_width] for e and s). *)
Theorem variant_rebinding_raises :
  Forall2
    (λ nf v, ∀ kwargs, ¬ no_rebinding (group_fixed v.2) kwargs →
                       nf.2 kwargs = Raise TypeError)
    variant_constructors published_variants
  ∧ Forall
      (λ nf, ∀ kwargs,
         is_Some (kw_block kwargs) ∨ is_Some (kw_layers kwargs)
         ∨ is_Some (kw_name_prefix kwargs) →
         nf.2 kwargs = Raise TypeError)
      variant_constructors.
Proof.
  split.
  - apply over_all_variants. intros [d g] kwargs Hno.
    by apply rebinding_raises.
  - rewrite variants_are_presets. apply Forall_fmap, Forall_true.
    intros [d g] kwargs Hkw. apply rebinding_raises.
    intros (Hb & Hl & _ & _ & _ & Hn).
    destruct Hkw as [[x Hx] | [[x Hx] | [x Hx]]]; [congruence | congruence |].
    destruct Hn as [Hn | Hn]; [|congruence].
    destruct g; discriminate.
Qed.

Lemma variant_rebinding_raises_witness :
  resnet50_v1c
    {| kw_block := None; kw_layers := None; kw_classes := None;
       kw_data_format := None; kw_dilated := None; kw_norm_layer := None;
       kw_norm_kwargs := None; kw_last_gamma := None;
       kw_deep_stem := Some false;
       kw_stem_width := None; kw_avg_down := None; kw_final_drop := None;
       kw_name_prefix := None; kw_other := ∅ |}
  = Raise TypeError.
Proof.
  destruct variant_rebinding_raises as [H _].
  pose proof (Forall2_lookup_lr _ _ _ 5%nat _ _ H eq_refl eq_refl) as H5.
  apply H5. intros (_ & _ & [Hd | Hd] & _); discriminate.
Defined.



(** X16.  The number in a variant constructor's name is the number of
    weighted layers of every network it returns (the stem convolution,
    the convolutions on the main paths of the blocks and the dense
    classifier), plus 2 when the network has the deep stem, whose three
    convolutions replace the one. *)
Theorem variant_name_counts_weighted_layers :
  Forall2
    (λ nf v,
       nf.1 = variant_name v.1 v.2
       ∧ ∀ kwargs net,
           nf.2 kwargs = Ok net →
           Z.of_nat (weighted_layers net)
           = depth_number v.1
             + match ResNetV1b.conv1 net with
               | Single _ => 0
               | Sequence _ => 2
               end)
    variant_constructors published_variants.
Proof.
  apply over_all_variants. intros [d g]. split; [reflexivity|].
  intros kwargs net. cbn [preset fst snd]. unfold ResNetV1b_call.
  destruct (_ || _); [discriminate|]. intros Hinit.
  pose proof (init_fields _ _ _ _ _ _ _ _ _ _ _ _ _ _ _ Hinit)
    as (_ & _ & Hstem & _).
  apply weighted_layers_formula in Hinit
    as (n1 & n2 & n3 & n4 & Hn1 & Hn2 & Hn3 & Hn4 & _ & ->).
  rewrite Hstem. unfold ResNetV1b.make_stem.
  destruct d; cbn in Hn1, Hn2, Hn3, Hn4;
    injection Hn1 as <-; injection Hn2 as <-;
    injection Hn3 as <-; injection Hn4 as <-;
    destruct (pick (fx_deep_stem (group_fixed g)) (kw_deep_stem kwargs) false);
    reflexivity.
Qed.

Lemma variant_name_counts_weighted_layers_witness :
  ∃ net,
    resnet152_v1b no_kwargs = Ok net ∧ weighted_layers net = 152%nat.
Proof.
  let r := eval vm_compute in (resnet152_v1b no_kwargs) in
  match r with
  | Ok ?net =>
      assert (Hnet : resnet152_v1b no_kwargs = Ok net)
        by (vm_compute; reflexivity);
      exists net; split; [exact Hnet|];
      pose proof (Forall2_lookup_lr _ _ _ 4%nat _ _
                    variant_name_counts_weighted_layers eq_refl eq_refl)
        as [_ H];
      apply Nat2Z.inj; exact (H no_kwargs net Hnet)
  end.
Defined.

(** ** What the mode flags change *)

Lemma make_downsample_forget st stage_index block planes strides dilation
    strides' dilation' avg_down norm_layer data_format d d' :
  ResNetV1b.make_downsample st stage_index block planes strides dilation
    avg_down norm_layer data_format = Some d →
  ResNetV1b.make_downsample st stage_index block planes strides' dilation'
    avg_down norm_layer data_format = Some d' →
  seq_name d = seq_name d'
  ∧ forget_geometry <$> seq_items d = forget_geometry <$> seq_items d'.
Proof.
  unfold ResNetV1b.make_downsample.
  destruct (decide (strides ≠ 1 ∨ inplanes st ≠ planes * expansion block));
    [|discriminate].
  destruct (decide (strides' ≠ 1 ∨ inplanes st ≠ planes * expansion block));
    [|discriminate].
  intros [= <-] [= <-]. split; [reflexivity|].
  destruct avg_down; [|reflexivity]. cbn.
  destruct (decide (dilation = 1)), (decide (dilation' = 1)); reflexivity.
Qed.

Lemma block_call_forget block planes strides dilation downsample
    previous_dilation strides' dilation' downsample' previous_dilation'
    norm_layer nk last_gamma data_format b b' :
  block_call block planes strides dilation downsample previous_dilation
    norm_layer nk last_gamma data_format = Ok b →
  block_call block planes strides' dilation' downsample' previous_dilation'
    norm_layer nk last_gamma data_format = Ok b' →
  forget_geometry <$> match downsample with
                      | Some d => seq_items d | None => [] end
  = forget_geometry <$> match downsample' with
                        | Some d => seq_items d | None => [] end →
  forget_geometry <$> block_layers b = forget_geometry <$> block_layers b'.
Proof.
  intros Hb Hb' Hds.
  pose proof (block_call_downsample _ _ _ _ _ _ _ _ _ _ _ Hb) as (E & _).
  pose proof (block_call_downsample _ _ _ _ _ _ _ _ _ _ _ Hb') as (E' & _).
  unfold block_layers. rewrite E, E', !fmap_app, Hds. f_equal.
  unfold block_call, BottleneckV1b.__init__, norm_call_zero_gamma, result_map
    in Hb, Hb'.
  destruct block.
  - injection Hb as <-. injection Hb' as <-. reflexivity.
  - destruct last_gamma; cbn in Hb, Hb'.
    + destruct (nk !! "gamma_initializer"); cbn in Hb, Hb'; [discriminate|].
      injection Hb as <-. injection Hb' as <-. reflexivity.
    + injection Hb as <-. injection Hb' as <-. reflexivity.
Qed.

Lemma concat_replicate_forget (k : nat) (b b' : Block) :
  forget_geometry <$> block_layers b = forget_geometry <$> block_layers b' →
  forget_geometry <$> concat (block_layers <$> replicate k b)
  = forget_geometry <$> concat (block_layers <$> replicate k b').
Proof.
  intros H. induction k as [|k IH]; [reflexivity|].
  cbn. rewrite !fmap_app, H, IH. reflexivity.
Qed.

Lemma stage_forget stage_index block planes blocks strides dilation strides'
    dilation' avg_down norm_layer last_gamma data_format st stage stage' s s' :
  ResNetV1b._make_layer stage_index block planes blocks strides dilation
    avg_down norm_layer last_gamma data_format st = (Ok stage, s) →
  ResNetV1b._make_layer stage_index block planes blocks strides' dilation'
    avg_down norm_layer last_gamma data_format st = (Ok stage', s') →
  (strides ≠ 1 ∨ inplanes st ≠ planes * expansion block) →
  (strides' ≠ 1 ∨ inplanes st ≠ planes * expansion block) →
  forget_geometry <$> concat (block_layers <$> seq_items stage)
  = forget_geometry <$> concat (block_layers <$> seq_items stage')
  ∧ length (seq_items stage) = length (seq_items stage').
Proof.
  intros Hrun Hrun' Hneed Hneed'.
  apply make_layer_inv in Hrun as (d & first & b & _ & Hfirst & Hb & -> & _).
  apply make_layer_inv in Hrun'
    as (d' & first' & b' & _ & Hfirst' & Hb' & -> & _).
  unfold stage_of, seq_items. split; [|cbn; by rewrite !length_replicate].
  cbn [fmap list_fmap concat]. rewrite !fmap_app. f_equal.
  - apply (block_call_forget _ _ _ _ _ _ _ _ _ _ _ _ _ _ _ _ Hfirst Hfirst').
    destruct (proj2 (make_downsample_is_Some st stage_index block planes
                       strides dilation avg_down norm_layer data_format)
                Hneed) as [x Hx].
    destruct (proj2 (make_downsample_is_Some st stage_index block planes
                       strides' dilation' avg_down norm_layer data_format)
                Hneed') as [x' Hx'].
    rewrite Hx, Hx'.
    exact (proj2 (make_downsample_forget _ _ _ _ _ _ _ _ _ _ _ _ _ Hx Hx')).
  - apply concat_replicate_forget.
    by apply (block_call_forget _ _ _ _ _ _ _ _ _ _ _ _ _ _ _ _ Hb Hb').
Qed.

Lemma net_layers_forget (n1 n2 : ResNetV1b.t) :
  ResNetV1b.conv1 n1 = ResNetV1b.conv1 n2 →
  ResNetV1b.bn1 n1 = ResNetV1b.bn1 n2 →
  ResNetV1b.relu n1 = ResNetV1b.relu n2 →
  ResNetV1b.maxpool n1 = ResNetV1b.maxpool n2 →
  ResNetV1b.avgpool n1 = ResNetV1b.avgpool n2 →
  ResNetV1b.flat n1 = ResNetV1b.flat n2 →
  ResNetV1b.drop n1 = ResNetV1b.drop n2 →
  ResNetV1b.fc n1 = ResNetV1b.fc n2 →
  Forall2
    (λ s s', forget_geometry <$> concat (block_layers <$> seq_items s)
             = forget_geometry <$> concat (block_layers <$> seq_items s'))
    (net_stages n1) (net_stages n2) →
  forget_geometry <$> net_layers n1 = forget_geometry <$> net_layers n2.
Proof.
  intros E1 E2 E3 E4 E5 E6 E7 E8 Hst.
  unfold net_layers, net_blocks.
  rewrite E1, E2, E3, E4, E5, E6, E7, E8, !fmap_app. do 2 f_equal.
  f_equal. clear E1 E2 E3 E4 E5 E6 E7 E8.
  unfold net_stages in *.
  apply Forall2_cons_1 in Hst as [E1 Hst].
  apply Forall2_cons_1 in Hst as [E2 Hst].
  apply Forall2_cons_1 in Hst as [E3 Hst].
  apply Forall2_cons_1 in Hst as [E4 _].
  cbn [fmap list_fmap concat]. rewrite !app_nil_r.
  rewrite !fmap_app, !List.concat_app, !fmap_app, E1, E2, E3, E4.
  reflexivity.
Qed.

(** X17.  A network assembled in dilated mode and the network assembled
    from the same arguments without it have the same layers, one for
    one, up to geometry: strides, dilation rates and pool sizes differ,
    and nothing else (filters, kernel sizes, normalization, units), so
    the weights of one fit the other.  Stem, stages 1 and 2 and the
    final [inplanes] are the same outright. *)
Theorem dilated_network_same_layers_up_to_geometry block layers classes
    data_format norm_layer nk last_gamma deep_stem stem_width avg_down
    final_drop name_prefix kwargs n1 n2 :
  ResNetV1b.__init__ block layers classes data_format true norm_layer nk
    last_gamma deep_stem stem_width avg_down final_drop name_prefix kwargs
  = Ok n1 →
  ResNetV1b.__init__ block layers classes data_format false norm_layer nk
    last_gamma deep_stem stem_width avg_down final_drop name_prefix kwargs
  = Ok n2 →
  forget_geometry <$> net_layers n1 = forget_geometry <$> net_layers n2
  ∧ length (net_blocks n1) = length (net_blocks n2)
  ∧ ResNetV1b.conv1 n1 = ResNetV1b.conv1 n2
  ∧ ResNetV1b.layer1 n1 = ResNetV1b.layer1 n2
  ∧ ResNetV1b.layer2 n1 = ResNetV1b.layer2 n2
  ∧ ResNetV1b.attrs n1 = ResNetV1b.attrs n2.
Proof.
  intros Hi1 Hi2.
  pose proof (init_fields _ _ _ _ _ _ _ _ _ _ _ _ _ _ _ Hi1)
    as (_ & _ & Hc1 & Hb1 & Hr1 & Hm1 & Ha1 & Hf1 & Hd1 & Hfc1).
  pose proof (init_fields _ _ _ _ _ _ _ _ _ _ _ _ _ _ _ Hi2)
    as (_ & _ & Hc2 & Hb2 & Hr2 & Hm2 & Ha2 & Hf2 & Hd2 & Hfc2).
  apply init_inv in Hi1 as (Hs1 & _). apply init_inv in Hi2 as (Hs2 & _).
  apply make_stages_inv in Hs1
    as (a1 & a2 & a3 & a4 & Ha & Hb & Hc & Hd & R1 & R2 & R3 & R4 & Hat1).
  apply make_stages_inv in Hs2
    as (c1 & c2 & c3 & c4 & Ha' & Hb' & Hc' & Hd' & T1 & T2 & T3 & T4 & Hat2).
  assert (c1 = a1) as -> by congruence. assert (c2 = a2) as -> by congruence.
  assert (c3 = a3) as -> by congruence. assert (c4 = a4) as -> by congruence.
  assert (E1 : ResNetV1b.layer1 n1 = ResNetV1b.layer1 n2) by congruence.
  assert (E2 : ResNetV1b.layer2 n1 = ResNetV1b.layer2 n2) by congruence.
  assert (Hneed : ∀ p q : Z, p ≠ q →
            1 ≠ 1 ∨ p * expansion block ≠ q * expansion block).
  { intros p q Hpq. right.
    destruct block;
      unfold expansion, BasicBlockV1b.expansion, BottleneckV1b.expansion; lia. }
  destruct (stage_forget _ _ _ _ _ _ _ _ _ _ _ _ _ _ _ _ _ R3 T3)
    as [E3 L3]; [apply Hneed; lia | left; lia |].
  destruct (stage_forget _ _ _ _ _ _ _ _ _ _ _ _ _ _ _ _ _ R4 T4)
    as [E4 L4]; [apply Hneed; lia | left; lia |].
  split; [|split; [|repeat split; congruence]].
  - apply net_layers_forget; try congruence.
    unfold net_stages. rewrite E1, E2. repeat constructor; assumption.
  - unfold net_blocks, net_stages. cbn [fmap list_fmap concat].
    rewrite !List.length_app, E1, E2, L3, L4. reflexivity.
Qed.

Lemma dilated_network_same_layers_up_to_geometry_witness :
  ∃ n1 n2,
    ResNetV1b.__init__ BottleneckV1b_class [3; 4; 6; 3] 1000 "channels_last"
      true BatchNormalization ∅ false true 32 true 0%Q "resnetv1d_" ∅ = Ok n1
    ∧ ResNetV1b.__init__ BottleneckV1b_class [3; 4; 6; 3] 1000
        "channels_last" false BatchNormalization ∅ false true 32 true 0%Q
        "resnetv1d_" ∅ = Ok n2
    ∧ forget_geometry <$> net_layers n1 = forget_geometry <$> net_layers n2
    ∧ net_layers n1 ≠ net_layers n2.
Proof.
  let r1 := eval vm_compute in
    (ResNetV1b.__init__ BottleneckV1b_class [3; 4; 6; 3] 1000 "channels_last"
       true BatchNormalization ∅ false true 32 true 0%Q "resnetv1d_" ∅) in
  let r2 := eval vm_compute in
    (ResNetV1b.__init__ BottleneckV1b_class [3; 4; 6; 3] 1000 "channels_last"
       false BatchNormalization ∅ false true 32 true 0%Q "resnetv1d_" ∅) in
  match r1 with
  | Ok ?n1 =>
      match r2 with
      | Ok ?n2 =>
          assert (H1 :
            ResNetV1b.__init__ BottleneckV1b_class [3; 4; 6; 3] 1000
              "channels_last" true BatchNormalization ∅ false true 32 true
              0%Q "resnetv1d_" ∅ = Ok n1) by (vm_compute; reflexivity);
          assert (H2 :
            ResNetV1b.__init__ BottleneckV1b_class [3; 4; 6; 3] 1000
              "channels_last" false BatchNormalization ∅ false true 32 true
              0%Q "resnetv1d_" ∅ = Ok n2) by (vm_compute; reflexivity);
          exists n1, n2; split; [exact H1|]; split; [exact H2|];
          split;
            [exact (proj1 (dilated_network_same_layers_up_to_geometry
                             _ _ _ _ _ _ _ _ _ _ _ _ _ _ _ H1 H2))|]
      end
  end.
  vm_compute. intros [=].
Defined.

Lemma block_call_downsample_only block planes strides dilation downsample
    downsample' previous_dilation norm_layer nk last_gamma data_format b b' :
  block_call block planes strides dilation downsample previous_dilation
    norm_layer nk last_gamma data_format = Ok b →
  block_call block planes strides dilation downsample' previous_dilation
    norm_layer nk last_gamma data_format = Ok b' →
  block_own_layers b = block_own_layers b'
  ∧ block_strides b = block_strides b'.
Proof.
  unfold block_call, BottleneckV1b.__init__, norm_call_zero_gamma, result_map.
  destruct block.
  - intros [= <-] [= <-]. auto.
  - destruct last_gamma; cbn.
    + destruct (nk !! "gamma_initializer"); cbn; [discriminate|].
      intros [= <-] [= <-]. auto.
    + intros [= <-] [= <-]. auto.
Qed.

Lemma stage_average_down_only stage_index block planes blocks strides dilation
    avg_down avg_down' norm_layer last_gamma data_format st stage stage' s s' :
  ResNetV1b._make_layer stage_index block planes blocks strides dilation
    avg_down norm_layer last_gamma data_format st = (Ok stage, s) →
  ResNetV1b._make_layer stage_index block planes blocks strides dilation
    avg_down' norm_layer last_gamma data_format st = (Ok stage', s') →
  block_own_layers <$> seq_items stage = block_own_layers <$> seq_items stage'
  ∧ block_strides <$> seq_items stage = block_strides <$> seq_items stage'
  ∧ (λ b, bool_decide (is_Some (block_downsample b))) <$> seq_items stage
    = (λ b, bool_decide (is_Some (block_downsample b))) <$> seq_items stage'
  ∧ s = s'.
Proof.
  intros Hrun Hrun'.
  apply make_layer_inv in Hrun as (d & first & b & Hd & Hfirst & Hb & -> & ->).
  apply make_layer_inv in Hrun'
    as (d' & first' & b' & Hd' & Hfirst' & Hb' & -> & ->).
  assert (d' = d) as -> by lia. assert (b' = b) as -> by congruence.
  destruct (block_call_downsample_only _ _ _ _ _ _ _ _ _ _ _ _ _
              Hfirst Hfirst') as [Hown Hstr].
  apply block_call_downsample in Hfirst as (Hds & _).
  apply block_call_downsample in Hfirst' as (Hds' & _).
  unfold stage_of, seq_items. cbn [fmap list_fmap].
  rewrite Hown, Hstr, Hds, Hds'. repeat split. f_equal.
  apply bool_decide_ext. rewrite !make_downsample_is_Some. reflexivity.
Qed.

(** X18.  Average-down changes the downsample lists and nothing else:
    the networks assembled with and without it, from the same other
    arguments, have the same stem, the same own layers and strides in
    every block, downsample lists on the same blocks, and the same
    final [inplanes]. *)
Theorem average_down_changes_downsample_only block layers classes data_format
    dilated norm_layer nk last_gamma deep_stem stem_width final_drop
    name_prefix kwargs n1 n2 :
  ResNetV1b.__init__ block layers classes data_format dilated norm_layer nk
    last_gamma deep_stem stem_width true final_drop name_prefix kwargs
  = Ok n1 →
  ResNetV1b.__init__ block layers classes data_format dilated norm_layer nk
    last_gamma deep_stem stem_width false final_drop name_prefix kwargs
  = Ok n2 →
  ResNetV1b.conv1 n1 = ResNetV1b.conv1 n2
  ∧ block_own_layers <$> net_blocks n1 = block_own_layers <$> net_blocks n2
  ∧ block_strides <$> net_blocks n1 = block_strides <$> net_blocks n2
  ∧ (λ b, bool_decide (is_Some (block_downsample b))) <$> net_blocks n1
    = (λ b, bool_decide (is_Some (block_downsample b))) <$> net_blocks n2
  ∧ ResNetV1b.attrs n1 = ResNetV1b.attrs n2.
Proof.
  intros Hi1 Hi2.
  pose proof (init_fields _ _ _ _ _ _ _ _ _ _ _ _ _ _ _ Hi1)
    as (_ & _ & Hc1 & _).
  pose proof (init_fields _ _ _ _ _ _ _ _ _ _ _ _ _ _ _ Hi2)
    as (_ & _ & Hc2 & _).
  apply init_inv in Hi1 as (Hs1 & _). apply init_inv in Hi2 as (Hs2 & _).
  apply make_stages_inv in Hs1
    as (a1 & a2 & a3 & a4 & Ha & Hb & Hc & Hd & R1 & R2 & R3 & R4 & Hat1).
  apply make_stages_inv in Hs2
    as (c1 & c2 & c3 & c4 & Ha' & Hb' & Hc' & Hd' & T1 & T2 & T3 & T4 & Hat2).
  assert (c1 = a1) as -> by congruence. assert (c2 = a2) as -> by congruence.
  assert (c3 = a3) as -> by congruence. assert (c4 = a4) as -> by congruence.
  destruct (stage_average_down_only _ _ _ _ _ _ _ _ _ _ _ _ _ _ _ _ R1 T1)
    as (O1 & S1 & D1 & _).
  destruct (stage_average_down_only _ _ _ _ _ _ _ _ _ _ _ _ _ _ _ _ R2 T2)
    as (O2 & S2 & D2 & _).
  destruct (stage_average_down_only _ _ _ _ _ _ _ _ _ _ _ _ _ _ _ _ R3 T3)
    as (O3 & S3 & D3 & _).
  destruct (stage_average_down_only _ _ _ _ _ _ _ _ _ _ _ _ _ _ _ _ R4 T4)
    as (O4 & S4 & D4 & _).
  split; [congruence|].
  unfold net_blocks, net_stages. cbn [fmap list_fmap concat].
  rewrite !fmap_app, O1, O2, O3, O4, S1, S2, S3, S4, D1, D2, D3, D4.
  repeat split. congruence.
Qed.

Lemma average_down_changes_downsample_only_witness :
  ∃ n1 n2,
    ResNetV1b.__init__ BottleneckV1b_class [3; 4; 6; 3] 1000 "channels_last"
      false BatchNormalization ∅ false true 32 true 0%Q "" ∅ = Ok n1
    ∧ ResNetV1b.__init__ BottleneckV1b_class [3; 4; 6; 3] 1000
        "channels_last" false BatchNormalization ∅ false true 32 false 0%Q
        "" ∅ = Ok n2
    ∧ block_own_layers <$> net_blocks n1 = block_own_layers <$> net_blocks n2
    ∧ net_layers n1 ≠ net_layers n2.
Proof.
  let r1 := eval vm_compute in
    (ResNetV1b.__init__ BottleneckV1b_class [3; 4; 6; 3] 1000 "channels_last"
       false BatchNormalization ∅ false true 32 true 0%Q "" ∅) in
  let r2 := eval vm_compute in
    (ResNetV1b.__init__ BottleneckV1b_class [3; 4; 6; 3] 1000 "channels_last"
       false BatchNormalization ∅ false true 32 false 0%Q "" ∅) in
  match r1 with
  | Ok ?n1 =>
      match r2 with
      | Ok ?n2 =>
          assert (H1 :
            ResNetV1b.__init__ BottleneckV1b_class [3; 4; 6; 3] 1000
              "channels_last" false BatchNormalization ∅ false true 32 true
              0%Q "" ∅ = Ok n1) by (vm_compute; reflexivity);
          assert (H2 :
            ResNetV1b.__init__ BottleneckV1b_class [3; 4; 6; 3] 1000
              "channels_last" false BatchNormalization ∅ false true 32 false
              0%Q "" ∅ = Ok n2) by (vm_compute; reflexivity);
          exists n1, n2; split; [exact H1|]; split; [exact H2|];
          split;
            [exact (proj1 (proj2 (average_down_changes_downsample_only
                                    _ _ _ _ _ _ _ _ _ _ _ _ _ _ _ H1 H2)))|]
      end
  end.
  vm_compute. intros [=].
Defined.

Lemma stage_out_filters stage_index block planes blocks strides dilation
    avg_down norm_layer last_gamma data_format st stage st' :
  ResNetV1b._make_layer stage_index block planes blocks strides dilation
    avg_down norm_layer last_gamma data_format st = (Ok stage, st') →
  Forall (λ b, layer_filters (block_out_conv b) = Some (inplanes st'))
    (seq_items stage).
Proof.
  intros Hrun.
  apply make_layer_inv in Hrun as (d & first & b & _ & Hfirst & Hb & -> & ->).
  unfold stage_of, seq_items, after_stage. cbn [inplanes]. constructor.
  - eapply block_call_filters. exact Hfirst.
  - apply Forall_replicate. eapply block_call_filters. exact Hb.
Qed.

(** X19.  The channel counter follows the network: in every assembled
    network the [inplanes] the first stage builder call starts from is
    the filter count of the last stem convolution, and the [inplanes]
    each stage builder call leaves, which the next call starts from, is
    the filter count of the last convolution of every block of the stage
    it built. *)
Theorem inplanes_is_channel_count block layers classes data_format dilated
    norm_layer nk last_gamma deep_stem stem_width avg_down final_drop
    name_prefix kwargs net :
  ResNetV1b.__init__ block layers classes data_format dilated norm_layer nk
    last_gamma deep_stem stem_width avg_down final_drop name_prefix kwargs
  = Ok net →
  ∃ n1 n2 n3 n4 t0 t1 t2 t3 before,
    path_filters (node_layers (ResNetV1b.conv1 net))
    = (before ++ [inplanes t0])%list
    ∧ ResNetV1b._make_layer 1 block 64 n1 1 1 avg_down norm_layer last_gamma
        data_format t0 = (Ok (ResNetV1b.layer1 net), t1)
    ∧ ResNetV1b._make_layer 2 block 128 n2 2 1 avg_down norm_layer last_gamma
        data_format t1 = (Ok (ResNetV1b.layer2 net), t2)
    ∧ ResNetV1b._make_layer 3 block 256 n3 (if dilated then 1 else 2)
        (if dilated then 2 else 1) avg_down norm_layer last_gamma
        data_format t2 = (Ok (ResNetV1b.layer3 net), t3)
    ∧ ResNetV1b._make_layer 4 block 512 n4 (if dilated then 1 else 2)
        (if dilated then 4 else 1) avg_down norm_layer last_gamma
        data_format t3 = (Ok (ResNetV1b.layer4 net), ResNetV1b.attrs net)
    ∧ Forall (λ b, layer_filters (block_out_conv b) = Some (inplanes t1))
        (seq_items (ResNetV1b.layer1 net))
    ∧ Forall (λ b, layer_filters (block_out_conv b) = Some (inplanes t2))
        (seq_items (ResNetV1b.layer2 net))
    ∧ Forall (λ b, layer_filters (block_out_conv b) = Some (inplanes t3))
        (seq_items (ResNetV1b.layer3 net))
    ∧ Forall (λ b, layer_filters (block_out_conv b)
                   = Some (inplanes (ResNetV1b.attrs net)))
        (seq_items (ResNetV1b.layer4 net)).
Proof.
  intros Hinit.
  pose proof (init_fields _ _ _ _ _ _ _ _ _ _ _ _ _ _ _ Hinit)
    as (_ & _ & Hstem & _).
  apply init_inv in Hinit as (Hstages & _).
  apply make_stages_inv in Hstages
    as (n1 & n2 & n3 & n4 & _ & _ & _ & _ & H1 & H2 & H3 & H4 & Hat).
  rewrite <- Hat in H4.
  exists n1, n2, n3, n4. eexists _, _, _, _.
  exists (if deep_stem then [stem_width; stem_width] else []).
  split; [|split; [exact H1|split; [exact H2|split; [exact H3|
            split; [exact H4|]]]]].
  - rewrite Hstem. destruct deep_stem; reflexivity.
  - split; [exact (stage_out_filters _ _ _ _ _ _ _ _ _ _ _ _ _ H1)|].
    split; [exact (stage_out_filters _ _ _ _ _ _ _ _ _ _ _ _ _ H2)|].
    split; [exact (stage_out_filters _ _ _ _ _ _ _ _ _ _ _ _ _ H3)|].
    exact (stage_out_filters _ _ _ _ _ _ _ _ _ _ _ _ _ H4).
Qed.

Lemma inplanes_is_channel_count_witness :
  ∃ net,
    ResNetV1b.__init__ BottleneckV1b_class [3; 4; 6; 3] 1000 "channels_last"
      false BatchNormalization ∅ false true 64 false 0%Q "resnetv1s_" ∅
    = Ok net
    ∧ path_filters (node_layers (ResNetV1b.conv1 net)) = [64; 64; 128]
    ∧ Forall (λ b, layer_filters (block_out_conv b) = Some 2048)
        (seq_items (ResNetV1b.layer4 net)).
Proof.
  let r := eval vm_compute in
    (ResNetV1b.__init__ BottleneckV1b_class [3; 4; 6; 3] 1000 "channels_last"
       false BatchNormalization ∅ false true 64 false 0%Q "resnetv1s_" ∅) in
  match r with
  | Ok ?net =>
      assert (Hinit :
        ResNetV1b.__init__ BottleneckV1b_class [3; 4; 6; 3] 1000
          "channels_last" false BatchNormalization ∅ false true 64 false 0%Q
          "resnetv1s_" ∅ = Ok net) by (vm_compute; reflexivity);
      destruct (inplanes_is_channel_count _ _ _ _ _ _ _ _ _ _ _ _ _ _ _ Hinit)
        as (n1 & n2 & n3 & n4 & t0 & t1 & t2 & t3 & before & _ & _ & _ & _ & _
            & _ & _ & _ & H4);
      exists net; split; [exact Hinit|]; split; [reflexivity | exact H4]
  end.
Defined.
